(** * SafeSpace ("Friday"): the turn-dispatch protocol, the tool layer,
      the session shim and the TTS retry loop, embedded from the Python
      sources and checked against the repository's specification.

    Source files covered:
    - [src/backend/ai_agent.py], [src/app.py]: [parse_response] and the two
      tools as the agent sees them;
    - [src/backend/tools.py]: [query_medgemma], [call_emergency_contact];
    - [src/backend/main.py]: [SESSIONS], [start_session], [ask_question];
    - [src/frontend.py]: [handle_tts_generation_and_play]. *)

From Stdlib Require Import String Ascii NArith List DecimalString.
From stdpp Require Import gmap list fin_maps.

Set Default Proof Using "Type".

(** ** Python strings

    A Python [str] is a sequence of Unicode code points; we keep it as the
    list of its code points, so that [+] is [++] and [str.strip] can be
    written with the exact whitespace table of the interpreter. *)

Module Py.

Definition char := N.
Definition str := list char.

(** A literal of the source, written with ASCII characters. *)
Definition lit (s : string) : str :=
  N_of_ascii <$> list_ascii_of_string s.

(** [str.isspace] on one code point: the table of CPython's
    [_PyUnicode_IsWhitespace]. *)
Definition isspace (c : char) : bool :=
  ((9 <=? c) && (c <=? 13) || (28 <=? c) && (c <=? 32)
   || (c =? 133) || (c =? 160) || (c =? 5760)
   || (8192 <=? c) && (c <=? 8202)
   || (c =? 8232) || (c =? 8233) || (c =? 8239) || (c =? 8287)
   || (c =? 12288))%N.

Fixpoint lstrip (s : str) : str :=
  match s with
  | c :: s' => if isspace c then lstrip s' else s
  | [] => []
  end.

Definition rstrip (s : str) : str := rev (lstrip (rev s)).

(** [s.strip()] with no argument. *)
Definition strip (s : str) : str := rstrip (lstrip s).

(** Truthiness of a string: non-empty. *)
Definition truthy (s : str) : bool :=
  match s with [] => false | _ :: _ => true end.

Fixpoint startswith (s p : str) : bool :=
  match p, s with
  | [], _ => true
  | _ :: _, [] => false
  | a :: p', b :: s' => (a =? b)%N && startswith s' p'
  end.

(** The characters used by the literals below that a literal cannot
    hold. *)
Definition dq : str := [34%N].
Definition nl : str := [10%N].

(** [str(n)] for a non-negative integer. *)
Definition str_of_nat (n : nat) : str :=
  lit (DecimalString.NilZero.string_of_uint (Nat.to_uint n)).

(** [needle in hay] for strings. *)
Fixpoint contains (needle hay : str) : bool :=
  startswith hay needle ||
  match hay with
  | [] => false
  | _ :: hay' => contains needle hay'
  end.

End Py.

Abbreviation pystr := Py.str.
Notation "'py' s" := (Py.lit s%string) (at level 9, s at level 0, only parsing).

(** ** Messages and stream events (langchain_core / langgraph) *)

(** One entry of [AIMessage.tool_calls]: a dictionary.  [tc_name] is what
    [.get('name')] returns ([None] when the key is missing or holds
    Python's None). *)
Record tool_call := ToolCall {
  tc_name : option pystr;
  tc_args : list (pystr * pystr);
  tc_id   : option pystr
}.

(** [BaseMessage.content] is either a string or a list of content blocks. *)
Inductive content_t :=
| CStr (s : pystr)
| CBlocks (blocks : list pystr).

(** The concrete subclasses of [BaseMessage] met in a stream.  Only
    [AIMessage] carries a [tool_calls] attribute. *)
Inductive BaseMessage :=
| AIMessage (c : content_t) (calls : list tool_call)
| ToolMessage (c : content_t) (tool_call_id : pystr)
| HumanMessage (c : content_t)
| SystemMessage (c : content_t).

Definition content (m : BaseMessage) : content_t :=
  match m with
  | AIMessage c _ | ToolMessage c _ | HumanMessage c | SystemMessage c => c
  end.

(** [getattr(msg, 'tool_calls')] guarded by [hasattr]: [None] when the
    attribute does not exist. *)
Definition tool_calls (m : BaseMessage) : option (list tool_call) :=
  match m with
  | AIMessage _ calls => Some calls
  | _ => None
  end.

(** What a message list may hold besides message objects. *)
Inductive raw_object :=
| RawNone
| RawDict (d : list (pystr * pystr))
| RawTuple (role text : pystr).

(** An element of a ['messages'] list: a [BaseMessage] instance
    ([isinstance(msg, BaseMessage)] holds) or something else. *)
Inductive item :=
| Msg (m : BaseMessage)
| Raw (o : raw_object).

(** The value a stream step holds under a node key: a dictionary, seen
    through its ['messages'] entry ([None]: the key is not in the
    dictionary), or a value that is not a dictionary. *)
Inductive update :=
| NotADict
| StateDict (messages : option (list item)).

(** One step of [graph.stream(..., stream_mode="updates")]: a dictionary
    from node names to updates. *)
Abbreviation step := (gmap pystr update).

(** ** [parse_response] (src/backend/ai_agent.py:64, src/app.py:131;
       the two bodies are the same) *)

(** Lines 76-85: the messages taken from one step. *)
Definition messages_to_process (s : step) : list item :=
  match s !! py"__root__" with
  | Some (StateDict (Some msgs)) => msgs
  | _ =>
    match s !! py"agent" with
    | Some (StateDict (Some msgs)) => msgs
    | _ => []
    end
  end.

(** Lines 92-95: the assignment to [tool_called_name] for one message. *)
Definition update_tool (tool_called_name : pystr) (m : BaseMessage) : pystr :=
  match tool_calls m with
  | Some (tc :: _) =>
    match tc_name tc with
    | Some n => if Py.truthy n then n else tool_called_name
    | None => tool_called_name
    end
  | _ => tool_called_name
  end.

(** Lines 99-100: the accumulation of [final_response] for one message. *)
Definition update_text (final_response : pystr) (m : BaseMessage) : pystr :=
  match content m with
  | CStr s => final_response ++ s
  | CBlocks _ => final_response
  end.

(** Lines 88-100: the body of the inner loop. *)
Definition process_item (st : pystr * pystr) (it : item) : pystr * pystr :=
  match it with
  | Msg m => (update_tool st.1 m, update_text st.2 m)
  | Raw _ => st
  end.

(** Lines 75-100: the body of the outer loop. *)
Definition process_step (st : pystr * pystr) (s : step) : pystr * pystr :=
  foldl process_item st (messages_to_process s).

Definition parse_response (stream : list step) : pystr * pystr :=
  let st := foldl process_step (py"None", []) stream in
  (st.1, Py.strip st.2).

(** ** The tool layer of the backend (src/backend/tools.py) *)

(** The telephony settings: [None] stands for a setting that is unset. In
    src/app.py they are read with [os.getenv]; src/backend/tools.py imports
    them from a [config] module that is not part of the sources, so they are
    taken as a parameter there. *)
Record telephony := Telephony {
  TWILIO_ACCOUNT_SID : option pystr;
  TWILIO_AUTH_TOKEN  : option pystr;
  TWILIO_FROM_NUMBER : option pystr
}.

(** What [Client(sid, token).calls.create(to=, from_=, url=)] does: it
    returns a call, of which the code reads [sid], or raises; [str(e)] is
    kept for the exception. *)
Inductive call_result :=
| CallCreated (sid : pystr)
| CallRaised (e : pystr).

Definition twilio_client :=
  option pystr -> option pystr -> pystr -> option pystr -> pystr -> call_result.

(** What a chat provider does: it returns a response or raises. *)
Inductive provider_result (A : Type) :=
| Returned (r : A)
| Raised (e : pystr).
Arguments Returned {A} r.
Arguments Raised {A} e.

Module Tools.
Import Py.

Definition system_prompt : pystr :=
  nl
  ++ py"        You are Dr Julie Stark, a warm and experienced clinical pschologist." ++ nl
  ++ py"        Respond to patients with:" ++ nl
  ++ py"        " ++ nl
  ++ py"        1. Emotional attunement (" ++ dq ++ dq ++ py"I can see that you're feeling..." ++ dq ++ py")" ++ nl
  ++ py"        2. Gental normalization (" ++ dq ++ py"Many people feel this way..." ++ dq ++ py")" ++ nl
  ++ py"        3. Practical guidance (" ++ dq ++ py"What sometimes helps is..." ++ dq ++ py")" ++ nl
  ++ py"        4. Strengths-focused support (" ++ dq ++ py"I Notice how you're..." ++ dq ++ py")" ++ nl
  ++ py"        " ++ nl
  ++ py"        key principles: " ++ nl
  ++ py"        - Never use brackets or labels" ++ nl
  ++ py"        - Blend elements seamlessly" ++ nl
  ++ py"        - vary sentence structure" ++ nl
  ++ py"        - use natural transitions" ++ nl
  ++ py"        - Mirror the users language and tone" ++ nl
  ++ py"        - Use a warm, empathetic tone" ++ nl
  ++ py"        - Always keep the conversation going by asking open ended questions to dive into root causes of patients problems" ++ nl
  ++ py"    ".

(** The fixed text of the [except] branch of [query_medgemma]. *)
Definition fallback : pystr :=
  py"I'm having technical difficulties right now, but I want you to know your feelings matter. Please try again later.".

(** [ollama.chat(model=, messages=, options=)]: the model name and the
    (role, content) messages are passed on; the sampling options are
    constants of the call.  The response is seen through
    [response['message']['content']]: [None] when that path does not lead
    to a string (the lookup or [.strip()] raises inside the [try]). *)
Definition ollama_chat :=
  pystr -> list (pystr * pystr) -> provider_result (option pystr).

(** Lines 4-48.  The [print] of the [except] branch writes to the
    server's standard output only. *)
Definition query_medgemma (chat : ollama_chat) (prompt : pystr) : pystr :=
  match chat py"alibayram/medgemma:4b"
             [(py"system", system_prompt); (py"user", prompt)] with
  | Returned (Some text) => strip text
  | Returned None => fallback
  | Raised _ => fallback
  end.

(** Lines 50-71. *)
Definition call_emergency_contact (cfg : telephony) (Client : twilio_client)
    (phone : pystr) : pystr :=
  match Client (TWILIO_ACCOUNT_SID cfg) (TWILIO_AUTH_TOKEN cfg) phone
               (TWILIO_FROM_NUMBER cfg)
               py"http://demo.twilio.com/docs/voice.xml" with
  | CallCreated sid =>
    py"A critical situation alert has been successfully triggered. The emergency helpline is now calling the number: "
    ++ phone ++ py". The call SID is " ++ sid ++ py". Please wait a moment."
  | CallRaised e =>
    py"Emergency call attempt failed. Error: " ++ e
    ++ py". Please contact a local emergency service immediately by dialing 911 (or your local equivalent)."
  end.

End Tools.

(** ** The agent of the backend (src/backend/ai_agent.py) *)

Module Agent.
Import Py.

(** Lines 15-22. *)
Definition ask_mental_health_specialist (chat : Tools.ollama_chat)
    (prompt : pystr) : pystr :=
  Tools.query_medgemma chat prompt.

(** Lines 24-30. *)
Definition call_emergency_services (cfg : telephony) (Client : twilio_client)
    (phone : pystr) : pystr :=
  Tools.call_emergency_contact cfg Client phone.

(** Lines 38-58; src/app.py lines 35-55 hold the same text. *)
Definition SYSTEM_PROMPT : pystr :=
  nl
  ++ py"You are " ++ dq ++ py"Friday" ++ dq ++ py", an AI mental health assistant with three modes of operation:" ++ nl
  ++ py"1. **General Q&A Mode**: If the user is asking a factual, casual, or non-emotional question, respond directly without using any tools." ++ nl
  ++ py"2. **Therapeutic Mode**: If the user shares emotional concerns, mental health struggles, or seeks personal guidance, use the `ask_mental_health_specialist` tool." ++ nl
  ++ py"3. **Emergency Mode**: If the user mentions suicidal thoughts, self-harm, or being in immediate danger, IMMEDIATELY call the `call_emergency_services` tool." ++ nl
  ++ nl
  ++ py"Rules for Decision Making:" ++ nl
  ++ py"- Always first assess the emotional and safety level of the user's message." ++ nl
  ++ py"- If the situation involves emotional distress but not immediate danger " ++ [8594%N] ++ py" Use `ask_mental_health_specialist`." ++ nl
  ++ py"- If there are any indicators of self-harm, suicide, or danger to self/others " ++ [8594%N] ++ py" Use `call_emergency_services` without hesitation." ++ nl
  ++ py"- Otherwise, answer directly as a friendly and helpful AI." ++ nl
  ++ nl
  ++ py"Tone Guidelines:" ++ nl
  ++ py"- Empathetic, warm, and understanding for all emotional interactions." ++ nl
  ++ py"- Concise and clear for general queries." ++ nl
  ++ py"- Urgent and safety-focused for emergencies." ++ nl
  ++ nl
  ++ py"You have access to:" ++ nl
  ++ py"- ask_mental_health_specialist(prompt: str)" ++ nl
  ++ py"- call_emergency_services(phone: str)" ++ nl.

End Agent.

(** ** The standalone application (src/app.py) *)

Module App.
Import Py.

(** Lines 65-80. *)
Definition system_prompt : pystr :=
  py"You are Dr Julie Stark, a warm and experienced clinical psychologist." ++ nl
  ++ py"Respond to patients with:" ++ nl
  ++ nl
  ++ py"1. Emotional attunement (" ++ dq ++ py"I can see that you're feeling..." ++ dq ++ py")" ++ nl
  ++ py"2. Gentle normalization (" ++ dq ++ py"Many people feel this way..." ++ dq ++ py")" ++ nl
  ++ py"3. Practical guidance (" ++ dq ++ py"What sometimes helps is..." ++ dq ++ py")" ++ nl
  ++ py"4. Strengths-focused support (" ++ dq ++ py"I notice how you're..." ++ dq ++ py")" ++ nl
  ++ nl
  ++ py"Key principles:" ++ nl
  ++ py"- Never use brackets or labels" ++ nl
  ++ py"- Blend elements seamlessly" ++ nl
  ++ py"- Vary sentence structure" ++ nl
  ++ py"- Use natural transitions" ++ nl
  ++ py"- Mirror the user's language and tone" ++ nl
  ++ py"- Use a warm, empathetic tone" ++ nl
  ++ py"- Always keep the conversation going by asking open-ended questions to explore root causes".

(** The fixed text of the [except] branch, lines 93-96. *)
Definition fallback : pystr :=
  py"I'm having technical difficulties right now, but I want you to know your feelings matter. "
  ++ py"Please try again later.".

(** The two messages handed to [therapist_llm.invoke]. *)
Inductive prompt_message :=
| SystemMsg (text : pystr)
| HumanMsg (text : pystr).

(** [therapist_llm.invoke(messages)]: the response is seen through
    [resp.content]. *)
Definition chat_model := list prompt_message -> provider_result content_t.

(** Lines 58-96.  [therapist_llm] is [None] when GROQ_API_KEY is unset.
    [(resp.content or "").strip()]: an empty content gives the empty
    string, a non-empty list of blocks has no [strip], and the
    AttributeError is caught by the [except] of line 92. *)
Definition ask_mental_health_specialist (therapist_llm : option chat_model)
    (prompt : pystr) : pystr :=
  match therapist_llm with
  | None =>
    py"The assistant is not fully configured (missing GROQ_API_KEY). "
    ++ py"Please try again after the server is configured."
  | Some llm =>
    match llm [SystemMsg system_prompt; HumanMsg prompt] with
    | Returned (CStr text) => strip text
    | Returned (CBlocks []) => strip []
    | Returned (CBlocks (_ :: _)) => fallback
    | Raised _ => fallback
    end
  end.

(** Truthiness of a setting read with [os.getenv]. *)
Definition is_set (v : option pystr) : bool :=
  match v with
  | Some s => truthy s
  | None => false
  end.

(** Lines 98-123.  [TwilioClient] is [None] when the import of line 16
    failed.  The guard of line 104 is the conjunction of the three
    settings and of the client class. *)
Definition call_emergency_services (cfg : telephony)
    (TwilioClient : option twilio_client) (phone : pystr) : pystr :=
  match
    (if is_set (TWILIO_ACCOUNT_SID cfg) && is_set (TWILIO_AUTH_TOKEN cfg)
        && is_set (TWILIO_FROM_NUMBER cfg)
     then TwilioClient else None)
  with
  | None =>
    py"Emergency call could not be initiated because telephony is not configured. "
    ++ py"Please dial your local emergency number immediately."
  | Some Client =>
    match Client (TWILIO_ACCOUNT_SID cfg) (TWILIO_AUTH_TOKEN cfg) phone
                 (TWILIO_FROM_NUMBER cfg)
                 py"http://demo.twilio.com/docs/voice.xml" with
    | CallCreated sid =>
      py"A critical situation alert has been triggered. The emergency helpline is now calling "
      ++ phone ++ py". " ++ py"Call SID: " ++ sid
      ++ py". Please stay safe and on the line."
    | CallRaised e =>
      py"Emergency call attempt failed (error: " ++ e
      ++ py"). Please contact your local emergency services immediately."
    end
  end.

End App.

(** ** The session shim (src/backend/main.py) *)

Module Main.
Import Py.

Inductive mode := chat | voice.

(** Lines 11-16. *)
Record Query := {
  message : pystr;
  session_id : pystr;
  input_mode : mode;
  response_mode : option mode
}.

(** Lines 18-20. *)
Record StartSessionRequest := {
  req_name : pystr;
  req_phone : pystr
}.

(** Lines 22-24. *)
Record StartSessionResponse := {
  resp_session_id : pystr;
  greeting : pystr
}.

(** One value of [SESSIONS]: the dictionary with the keys "name" and
    "phone". *)
Record session := Session {
  session_name : pystr;
  session_phone : pystr
}.

(** The in-memory session store of line 27, a dictionary keyed by the
    session id. *)
Abbreviation sessions := (gmap pystr session).

(** Lines 33-42.  [uuid4] is the string [str(uuid.uuid4())] drew for this
    call; the store is threaded through. *)
Definition start_session (uuid4 : pystr) (req : StartSessionRequest)
    (SESSIONS : sessions) : sessions * StartSessionResponse :=
  let session_id := uuid4 in
  let SESSIONS := <[session_id := Session (req_name req) (req_phone req)]> SESSIONS in
  let greeting :=
    py"Hello " ++ req_name req
    ++ py", I'm Friday. We can communicate in two modes: chat or voice. "
    ++ py"You can send messages by typing or speaking, and choose how you'd like me to respond." in
  (SESSIONS, {| resp_session_id := session_id; greeting := greeting |}).

(** The [inputs] handed to [graph.stream]: (role, text) pairs. *)
Definition inputs := list (pystr * pystr).

(** [graph.stream(inputs, stream_mode="updates")], consumed to its end. *)
Definition graph_stream := inputs -> list step.

(** The dictionary returned by [ask_question]. *)
Record AskResponse := {
  response : pystr;
  tool_called : pystr;
  chosen_response_mode : mode
}.

(** Lines 54-58: the f-string of the session context. *)
Definition session_context (name phone : pystr) : pystr :=
  py"User name: " ++ name ++ py". User phone: " ++ phone ++ py". "
  ++ py"When using call_emergency_services(phone), always pass this exact phone number: "
  ++ phone ++ py". "
  ++ py"Agent name is Friday.".

(** Lines 44-75.  The store is threaded through as in [start_session]. *)
Definition ask_question (graph : graph_stream) (query : Query)
    (SESSIONS : sessions) : sessions * AskResponse :=
  let session := SESSIONS !! session_id query in
  let name := match session with Some s => session_name s | None => py"there" end in
  let phone := match session with Some s => session_phone s | None => [] end in
  let chosen_mode :=
    match response_mode query with Some m => m | None => input_mode query end in
  let inputs :=
    [ (py"system", Agent.SYSTEM_PROMPT);
      (py"system", session_context name phone);
      (py"user", message query) ] in
  let '(tool_called_name, final_response) := parse_response (graph inputs) in
  (SESSIONS,
   {| response := final_response;
      tool_called := tool_called_name;
      chosen_response_mode := chosen_mode |}).

(** The requests the server accepts, and what it answers. *)
Inductive request :=
| GetRoot
| PostStartSession (uuid4 : pystr) (req : StartSessionRequest)
| PostAsk (query : Query).

Inductive reply :=
| RootReply (text : pystr)
| StartReply (r : StartSessionResponse)
| AskReply (r : AskResponse).

(** One request served against the store (lines 29-75). *)
Definition serve (graph : graph_stream) (SESSIONS : sessions) (r : request)
    : sessions * reply :=
  match r with
  | GetRoot => (SESSIONS, RootReply py"Hello, World!")
  | PostStartSession uuid4 req =>
    let '(S', a) := start_session uuid4 req SESSIONS in (S', StartReply a)
  | PostAsk query =>
    let '(S', a) := ask_question graph query SESSIONS in (S', AskReply a)
  end.

(** The registrations of a request sequence draw identifiers other than
    [sid]. *)
Definition draws_other (sid : pystr) (r : request) : Prop :=
  match r with
  | PostStartSession uuid4 _ => uuid4 <> sid
  | _ => True
  end.

(** The store after a sequence of requests. *)
Definition serve_all (graph : graph_stream) (SESSIONS : sessions)
    (rs : list request) : sessions :=
  foldl (fun S r => (serve graph S r).1) SESSIONS rs.

End Main.

(** ** The voice client (src/frontend.py) *)

Module Frontend.
Import Py.

(** How one pass through the [try] block of lines 83-125 ends. *)
Inductive attempt :=
| AudioReady             (* lines 97-111: the audio is played, [return True] *)
| MissingAudio           (* lines 112-114 *)
| RequestException (e : pystr)   (* line 116 *)
| OtherException (e : pystr).    (* line 123 *)

(** What the user and the clock observe. *)
Inductive event :=
| StInfo (text : pystr)
| HttpPost
| StAudio
| StSuccess (text : pystr)
| StWarning (text : pystr)
| StError (text : pystr)
| Sleep (seconds : nat).

Definition TTS_MODEL : pystr := py"gemini-2.5-flash-preview-tts".

(** Lines 82-126: the loop [for i in range(max_retries)], over the indices
    still to run.  [post i] is the outcome of the request made in
    iteration [i]. *)
Fixpoint tts_loop (post : nat -> attempt) (max_retries : nat) (range : list nat)
    : bool * list event :=
  match range with
  | [] => (false, [])
  | i :: range' =>
    match post i with
    | AudioReady =>
      (true, [HttpPost; StAudio; StSuccess py"Voice response played successfully."])
    | MissingAudio =>
      (false, [HttpPost; StError py"TTS API response missing audio data."])
    | RequestException e =>
      if i <? max_retries - 1 then
        let '(r, log) := tts_loop post max_retries range' in
        (r, [HttpPost;
             StWarning (py"TTS API failed (Attempt " ++ str_of_nat (i + 1)
                        ++ py"/" ++ str_of_nat max_retries
                        ++ py"). Retrying in " ++ str_of_nat (2 ^ i)
                        ++ py" seconds...");
             Sleep (2 ^ i)] ++ log)
      else
        (false, [HttpPost;
                 StError (py"TTS API failed after multiple retries. Please check the backend service: " ++ e)])
    | OtherException e =>
      (false, [HttpPost;
               StError (py"An unexpected error occurred during TTS processing: " ++ e)])
    end
  end.

(** Lines 61-126. *)
Definition handle_tts_generation_and_play (post : nat -> attempt)
    (text_to_speak voice_name : pystr) : bool * list event :=
  let max_retries := 3 in
  let '(r, log) := tts_loop post max_retries (seq 0 max_retries) in
  (r, StInfo (py"Generating voice response using model: " ++ TTS_MODEL ++ py"...") :: log).

(** The pauses, the requests and the errors of a log. *)
Definition sleeps (log : list event) : list nat :=
  omap (fun e => match e with Sleep n => Some n | _ => None end) log.

Definition is_post (e : event) : bool :=
  match e with HttpPost => true | _ => false end.

Definition posts (log : list event) : nat :=
  length (List.filter is_post log).

Definition is_error (e : event) : bool :=
  match e with StError _ => true | _ => false end.

End Frontend.

(** ** Vocabulary for the statements about [parse_response] *)

(** A step that holds the message list [msgs] under the single key [k]. *)
Definition single (k : pystr) (msgs : list item) : step :=
  {[ k := StateDict (Some msgs) ]}.

(** The two keys [parse_response] looks under. *)
Definition recognised (k : pystr) : Prop :=
  k = py"__root__" \/ k = py"agent".

(** The messages [parse_response] goes through, in the order it does. *)
Definition processed (stream : list step) : list item :=
  stream ≫= messages_to_process.

(** The name line 95 assigns for a message, if it assigns one: the name of
    the first entry of a non-empty [tool_calls], when it is a non-empty
    string. *)
Definition request_of (it : item) : option pystr :=
  match it with
  | Msg m =>
    match tool_calls m with
    | Some (tc :: _) =>
      match tc_name tc with
      | Some n => if Py.truthy n then Some n else None
      | None => None
      end
    | _ => None
    end
  | Raw _ => None
  end.

(** The string content of a message object, the empty string for
    anything else. *)
Definition text_of (it : item) : pystr :=
  match it with
  | Msg m => match content m with CStr s => s | CBlocks _ => [] end
  | Raw _ => []
  end.

(** Every tool-invocation request of the processed messages, in stream
    order: all the named entries of every [tool_calls] list. *)
Definition tool_requests (stream : list step) : list pystr :=
  processed stream ≫= fun it =>
    match it with
    | Msg m => omap tc_name (default [] (tool_calls m))
    | Raw _ => []
    end.

(** The specification's reading of the invoked tool: when the stream holds
    two or more requests, the first one observed. *)
Definition first_tool_wins (stream : list step) : Prop :=
  2 <= length (tool_requests stream) ->
  head (tool_requests stream) = Some (parse_response stream).1.

(** Every message of an event, whatever entry of the step holds it; the
    entries are taken in the order the map enumerates them. *)
Definition every_message (s : step) : list item :=
  (map_to_list s).*2 ≫= fun u =>
    match u with
    | StateDict (Some msgs) => msgs
    | _ => []
    end.

(** The specification's reading of the final text: every string content
    of every message of every event, concatenated and trimmed. *)
Definition text_of_every_message (stream : list step) : pystr :=
  Py.strip ((stream ≫= every_message) ≫= text_of).

(** ** Streams used as examples *)

Definition ask_name : pystr := py"ask_mental_health_specialist".
Definition emergency_name : pystr := py"call_emergency_services".

(** An assistant message that only requests the tool [n]. *)
Definition requesting (n : pystr) (args : list (pystr * pystr))
    (call_id : option pystr) : item :=
  Msg (AIMessage (CStr []) [ToolCall (Some n) args call_id]).

(** An assistant message, or a tool result, that only carries text. *)
Definition saying (text : pystr) : item := Msg (AIMessage (CStr text) []).
Definition tool_result (text call_id : pystr) : item :=
  Msg (ToolMessage (CStr text) call_id).

(** The therapist tool is requested in one agent step, the emergency tool
    in the next one. *)
Definition two_requests : list step :=
  [ single py"agent"
      [requesting ask_name [(py"prompt", py"I feel low")] (Some py"call_1")];
    single py"agent"
      [requesting emergency_name [(py"phone", py"+1555")] (Some py"call_2")] ].

(** One step that carries the two fragments "Hi " and "there", the first
    under '__root__' and the second under 'agent'. *)
Definition both_keys : step :=
  <[ py"__root__" := StateDict (Some [saying py"Hi "]) ]>
    (single py"agent" [saying py"there"]).

(** A tool result delivered under the key of the tool node. *)
Definition under_tools : step :=
  single py"tools" [tool_result py"Calling now" py"call_2"].

(** ** Providers used as examples *)

(** No telephony setting is set. *)
Definition no_telephony : telephony := Telephony None None None.

(** A telephony client that refuses to be built without an account
    identifier and a token, as the twilio package does, and places the
    call otherwise. *)
Definition twilio_requires_credentials : twilio_client :=
  fun sid token to from_ url =>
    match sid, token with
    | Some _, Some _ => CallCreated py"CA0001"
    | _, _ => CallRaised py"Credentials are required to create a TwilioClient"
    end.

(** A telephony client that accepts every request. *)
Definition twilio_accepts : twilio_client :=
  fun sid token to from_ url => CallCreated py"CA0001".

(** Chat providers that cannot be reached. *)
Definition ollama_down : Tools.ollama_chat :=
  fun model messages => Raised py"Failed to connect to Ollama".

Definition groq_down : App.chat_model :=
  fun messages => Raised py"Connection error.".

(** A TTS endpoint that cannot be reached, whatever the attempt. *)
Definition tts_down : nat -> Frontend.attempt :=
  fun i => Frontend.RequestException py"Connection refused".

(** ** The fixed texts the statements name *)

(** The text returned by the emergency tool of src/app.py when telephony
    is not configured (lines 105-108), as one literal. *)
Definition dial_directly : pystr :=
  py"Emergency call could not be initiated because telephony is not configured. Please dial your local emergency number immediately.".

(** The text both therapist tools return when the provider fails, as one
    literal. *)
Definition technical_difficulties : pystr :=
  py"I'm having technical difficulties right now, but I want you to know your feelings matter. Please try again later.".

(** The specification's reading of the TTS retry policy when every
    request fails: pauses of 1, 2 and 4 seconds, then an error shown. *)
Definition backoff_1_2_4 (post : nat -> Frontend.attempt) : Prop :=
  let log := (Frontend.handle_tts_generation_and_play post [] py"Kore").2 in
  Frontend.sleeps log = [1; 2; 4]
  /\ existsb Frontend.is_error log = true.

(** A server with one registered user, and a question from a session
    that was never registered. *)
Definition ada : Main.StartSessionRequest :=
  {| Main.req_name := py"Ada"; Main.req_phone := py"+1555" |}.

Definition question (sid text : pystr) : Main.Query :=
  {| Main.message := text; Main.session_id := sid;
     Main.input_mode := Main.chat; Main.response_mode := None |}.

(** An agent that answers nothing. *)
Definition silent_graph : Main.graph_stream := fun _ => [].

(** ** Vocabulary for further statements about [parse_response] *)

(** The message list an entry of a step offers to the parser: the entry
    must be a dictionary that holds 'messages'. *)
Definition entry_messages (o : option update) : option (list item) :=
  match o with
  | Some (StateDict (Some msgs)) => Some msgs
  | _ => None
  end.

(** The message object behind an element of a message list, if it is
    one. *)
Definition message_of (it : item) : option BaseMessage :=
  match it with
  | Msg m => Some m
  | Raw _ => None
  end.

(** A message with its [tool_calls] cut down to the first entry. *)
Definition first_call_only (it : item) : item :=
  match it with
  | Msg (AIMessage c (tc :: _)) => Msg (AIMessage c [tc])
  | _ => it
  end.

Definition first_calls_only (s : step) : step :=
  (fun u => match u with
            | StateDict (Some msgs) => StateDict (Some (first_call_only <$> msgs))
            | _ => u
            end) <$> s.

Definition whitespace (s : pystr) : Prop :=
  Forall (fun c => Py.isspace c = true) s.

(** A text that does not begin and does not end with whitespace. *)
Definition trimmed (s : pystr) : Prop :=
  (forall c rest, s = c :: rest -> Py.isspace c = false)
  /\ (forall c init, s = init ++ [c] -> Py.isspace c = false).

(** A step whose '__root__' entry is not a dictionary, beside an 'agent'
    entry with one message. *)
Definition root_not_a_dict : step :=
  <[ py"__root__" := NotADict ]> (single py"agent" [saying py"Hello"]).

(** A step with no entry the parser reads. *)
Definition unread_step : step := single py"tools" [saying py"ignored"].

(** ** Vocabulary for further statements about the retry loop *)

(** The outcomes after which the loop goes on to another request. *)
Definition retried (a : Frontend.attempt) : bool :=
  match a with
  | Frontend.RequestException _ => true
  | _ => false
  end.

(** How many of the first two requests end in a request exception before
    one of them ends otherwise. *)
Definition leading_failures (post : nat -> Frontend.attempt) : nat :=
  if retried (post 0) then if retried (post 1) then 2 else 1 else 0.

(** The requests and the pauses of a log, in the order they happen. *)
Definition timeline (log : list Frontend.event) : list Frontend.event :=
  List.filter
    (fun e => match e with
              | Frontend.HttpPost | Frontend.Sleep _ => true
              | _ => false
              end) log.

(** The requests [k], [k + 1], ..., [k + m], with a pause of 2^i seconds
    between request [i] and the next one, and no pause after the last. *)
Fixpoint backoff_timeline (k m : nat) : list Frontend.event :=
  match m with
  | 0 => [Frontend.HttpPost]
  | S m' => Frontend.HttpPost :: Frontend.Sleep (2 ^ k) :: backoff_timeline (S k) m'
  end.

(** A TTS endpoint that answers at the second request. *)
Definition tts_flaky : nat -> Frontend.attempt :=
  fun i => match i with
           | 0 => Frontend.RequestException py"Read timed out"
           | _ => Frontend.AudioReady
           end.

(** A telephony configuration with every setting set. *)
Definition telephony_set : telephony :=
  Telephony (Some py"AC0001") (Some py"token") (Some py"+15005550006").

(** A telephony client that has no line. *)
Definition twilio_busy : twilio_client :=
  fun sid token to from_ url => CallRaised py"HTTP 503".

(** A local model that answers with blanks. *)
Definition ollama_blank : Tools.ollama_chat :=
  fun model messages => Returned (Some py"   ").

(** ** The pages of the two Streamlit scripts

    A Streamlit script is run from top to bottom at every interaction:
    one run takes the session state and the values of the widgets, and
    gives the new session state and what is put on the page.  The labels
    of the widgets are not part of the model; their values are the inputs
    of a run. *)

(** An entry of [chat_history] (src/frontend.py) or of [messages]
    (src/app.py): the dictionary with the keys "role" and "content". *)
Record chat_entry := Entry {
  role : pystr;
  entry_content : pystr
}.

(** What a run puts on the page, in order. *)
Inductive ui_event :=
| UiTitle (text : pystr)
| UiCaption (text : pystr)
| UiMarkdown (text : pystr)
| UiInfo (text : pystr)
| UiError (text : pystr)
| UiSidebar (text : pystr)
| UiChatMessage (who text : pystr)
| UiTts (played : bool) (log : list Frontend.event).

(** How a run ends: at the end of the script, at [st.rerun()] (which
    leaves the script through an exception that [except Exception] does
    not catch), or at an exception nothing catches. *)
Inductive run_end :=
| Finished
| Rerun
| Uncaught (e : pystr).

Definition show (m : chat_entry) : ui_event :=
  UiChatMessage (role m) (entry_content m).

Definition mode_str (m : Main.mode) : pystr :=
  match m with
  | Main.chat => py"chat"
  | Main.voice => py"voice"
  end.

(** *** The client of the backend (src/frontend.py, lines 16-27 and
        128-233) *)

Module Client.
Import Py.

Definition backend_url : pystr := py"http://localhost:8000".

(** Lines 20-27.  [response_mode] is not set before the chat page sets it
    from its widget (line 27 assigns [st.session_mode]). *)
Record session_state := {
  session_id : option pystr;
  chat_history : list chat_entry;
  input_mode : Main.mode;
  response_mode : option Main.mode
}.

Definition initial : session_state :=
  {| session_id := None; chat_history := [];
     input_mode := Main.chat; response_mode := None |}.

(** The answer to [requests.post(...)] followed by [raise_for_status()]
    and [response.json()]: a JSON object whose values are strings, a
    request exception, or a body that is not a JSON object. *)
Inductive http_result :=
| JsonObject (data : gmap pystr pystr)
| HttpRequestException (e : pystr)
| NotAnObject (e : pystr).

(** The JSON body of the request of line 198. *)
Record payload := {
  p_message : pystr;
  p_session_id : pystr;
  p_input_mode : Main.mode;
  p_response_mode : Main.mode
}.

(** The widgets of the registration page (lines 132-135). *)
Record registration_form := {
  user_name : pystr;
  phone_number : pystr;
  submitted : bool
}.

(** The widgets of the chat page (lines 165-183); [st.chat_input] gives
    [None] or the text sent. *)
Record chat_widgets := {
  input_mode_selector : Main.mode;
  response_mode_selector : Main.mode;
  user_input : option pystr
}.

Definition with_session (st : session_state) (sid : pystr) : session_state :=
  {| session_id := Some sid; chat_history := chat_history st;
     input_mode := input_mode st; response_mode := response_mode st |}.

Definition append (st : session_state) (m : chat_entry) : session_state :=
  {| session_id := session_id st; chat_history := chat_history st ++ [m];
     input_mode := input_mode st; response_mode := response_mode st |}.

(** Lines 128-153: one run of the registration page
    ([st.session_state.session_id is None]).  A reply that lacks
    "session_id" or "greeting" raises a KeyError that line 150 does not
    catch; the second one is raised after the session id has been
    stored. *)
Definition registration_page
    (post_start : pystr -> pystr -> http_result)
    (form : registration_form) (st : session_state)
    : session_state * list ui_event * run_end :=
  let welcome :=
    [UiMarkdown py"### Welcome to SafeSpace. Please register to start your session."] in
  let info :=
    [UiInfo py"Your session ID will be generated upon successful registration."] in
  if submitted form && truthy (user_name form) && truthy (phone_number form) then
    match post_start (user_name form) (phone_number form) with
    | JsonObject data =>
      match data !! py"session_id" with
      | None => (st, welcome, Uncaught py"KeyError: 'session_id'")
      | Some sid =>
        match data !! py"greeting" with
        | None => (with_session st sid, welcome, Uncaught py"KeyError: 'greeting'")
        | Some g =>
          (append (with_session st sid) (Entry py"assistant" g), welcome, Rerun)
        end
      end
    | HttpRequestException e =>
      (st,
       welcome
       ++ [UiError (py"Could not connect to backend or register session. Please ensure your FastAPI server is running at "
                    ++ backend_url ++ py". Error: " ++ e)]
       ++ info,
       Finished)
    | NotAnObject e => (st, welcome, Uncaught e)
    end
  else (st, welcome ++ info, Finished).

(** Lines 156-233: one run of the chat page, for the session [sid]. *)
Definition chat_page
    (post_ask : payload -> http_result) (tts : nat -> Frontend.attempt)
    (sid : pystr) (w : chat_widgets) (st : session_state)
    : session_state * list ui_event * run_end :=
  let sidebar :=
    [ UiSidebar py"Session Controls";
      UiSidebar (py"**Session ID:** `" ++ sid ++ py"`");
      UiSidebar py"---";
      UiSidebar py"Conversation Mode" ] in
  let st :=
    {| session_id := session_id st; chat_history := chat_history st;
       input_mode := input_mode_selector w;
       response_mode := Some (response_mode_selector w) |} in
  let history (st : session_state) := show <$> chat_history st in
  match user_input w with
  | Some (c :: text) =>
    let user_input := c :: text in
    let st := append st (Entry py"user" user_input) in
    let payload :=
      {| p_message := user_input; p_session_id := sid;
         p_input_mode := input_mode_selector w;
         p_response_mode := response_mode_selector w |} in
    match post_ask payload with
    | JsonObject data =>
      let ai_response_text :=
        default py"Error: No 'response' key found in backend data."
                (data !! py"response") in
      let tool_called := data !! py"tool_called" in
      let '(st, spoken) :=
        match response_mode_selector w with
        | Main.voice =>
          let '(played, log) :=
            Frontend.handle_tts_generation_and_play tts ai_response_text py"Kore" in
          (append st (Entry py"assistant" (py"**(Voice Response)**: " ++ ai_response_text)),
           [UiTts played log])
        | Main.chat => (append st (Entry py"assistant" ai_response_text), [])
        end in
      let st :=
        match tool_called with
        | Some (c :: t) =>
          append st (Entry py"system" (py"**Tool Called:** `" ++ (c :: t) ++ py"`"))
        | _ => st
        end in
      (st, sidebar ++ spoken, Rerun)
    | HttpRequestException e =>
      (st,
       sidebar ++ [UiError (py"Network error communicating with the backend: " ++ e)]
       ++ history st,
       Finished)
    | NotAnObject e =>
      (st,
       sidebar ++ [UiError (py"An unexpected error occurred: " ++ e)]
       ++ history st,
       Finished)
    end
  | _ => (st, sidebar ++ history st, Finished)
  end.

(** Lines 16-17 and 128-233: one run of the script. *)
Definition run
    (post_start : pystr -> pystr -> http_result)
    (post_ask : payload -> http_result) (tts : nat -> Frontend.attempt)
    (form : registration_form) (w : chat_widgets) (st : session_state)
    : session_state * list ui_event * run_end :=
  let '(st', shown, e) :=
    match session_id st with
    | None => registration_page post_start form st
    | Some sid => chat_page post_ask tts sid w st
    end in
  (st', UiTitle py"SafeSpace - AI Mental Health Therapist" :: shown, e).

(** *** The backend behind the client *)

(** The body FastAPI sends for the response of [start_session] and for
    the dictionary [ask_question] returns. *)
Definition start_json (r : Main.StartSessionResponse) : gmap pystr pystr :=
  <[ py"session_id" := Main.resp_session_id r ]>
    {[ py"greeting" := Main.greeting r ]}.

Definition ask_json (r : Main.AskResponse) : gmap pystr pystr :=
  <[ py"response" := Main.response r ]>
    (<[ py"tool_called" := Main.tool_called r ]>
       {[ py"response_mode" := mode_str (Main.chosen_response_mode r) ]}).

(** The [Query] the backend validates from the body of line 189. *)
Definition to_query (p : payload) : Main.Query :=
  {| Main.message := p_message p; Main.session_id := p_session_id p;
     Main.input_mode := p_input_mode p;
     Main.response_mode := Some (p_response_mode p) |}.

(** The two requests answered by a backend that holds the store
    [SESSIONS]. *)
Definition backend_start (uuid4 : pystr) (SESSIONS : Main.sessions)
    (name phone : pystr) : http_result :=
  JsonObject
    (start_json
       (Main.start_session uuid4
          {| Main.req_name := name; Main.req_phone := phone |} SESSIONS).2).

Definition backend_ask (graph : Main.graph_stream) (SESSIONS : Main.sessions)
    (p : payload) : http_result :=
  JsonObject (ask_json (Main.ask_question graph (to_query p) SESSIONS).2).

End Client.

(** *** The page of the standalone application (src/app.py, lines
        149-233) *)

Module AppUI.
Import Py.

(** Lines 155-162. *)
Record session_state := {
  session_id : option pystr;
  name : pystr;
  phone : pystr;
  messages : list chat_entry
}.

Definition initial : session_state :=
  {| session_id := None; name := []; phone := []; messages := [] |}.

(** The widgets of lines 166-172 and 194. *)
Record widgets := {
  name_input : pystr;
  phone_input : pystr;
  start : bool;
  clear : bool;
  user_input : option pystr
}.

(** [a or b] for strings. *)
Definition or_else (a b : pystr) : pystr := if truthy a then a else b.

(** Lines 179-182. *)
Definition greeting (name : pystr) : pystr :=
  py"Hello " ++ name ++ py", I'm Friday. We can chat here. "
  ++ py"If you ever indicate an emergency, I may attempt to call the provided number for help.".

(** Lines 204-208. *)
Definition session_context (name phone : pystr) : pystr :=
  py"User name: " ++ name ++ py". User phone: " ++ phone ++ py". "
  ++ py"When using call_emergency_services(phone), always pass this exact phone number: "
  ++ phone ++ py". "
  ++ py"Agent name is Friday.".

Definition header : list ui_event :=
  [ UiTitle ([129504%N] ++ py" SafeSpace " ++ [8226%N] ++ py" Friday");
    UiCaption py"Confidential mental health support. This interface provides chat only.";
    UiSidebar py"Session" ].

(** Lines 174-183: the button "Start session". *)
Definition on_start (uuid4 : pystr) (w : widgets) (st : session_state)
    : session_state :=
  let name := or_else (strip (name_input w)) py"there" in
  {| session_id := Some uuid4;
     name := name;
     phone := strip (phone_input w);
     messages := [Entry py"assistant" (greeting name)] |}.

(** Lines 185-186: the button "Clear chat". *)
Definition on_clear (st : session_state) : session_state :=
  {| session_id := session_id st; name := name st; phone := phone st;
     messages := [] |}.

Definition append (st : session_state) (m : chat_entry) : session_state :=
  {| session_id := session_id st; name := name st; phone := phone st;
     messages := messages st ++ [m] |}.

(** Line 194: the chat input is disabled as long as no session id is set,
    and gives [None] then. *)
Definition chat_input (w : widgets) (st : session_state) : option pystr :=
  match session_id st with
  | Some (_ :: _) => user_input w
  | _ => None
  end.

(** Lines 195-233: a message of the user.  [graph] is [None] when
    GROQ_API_KEY is unset (line 128). *)
Definition on_message (graph : option Main.graph_stream) (user_input : pystr)
    (st : session_state) : session_state * list ui_event :=
  let st := append st (Entry py"user" user_input) in
  let name := or_else (name st) py"there" in
  let phone := or_else (phone st) [] in
  let inputs :=
    [ (py"system", Agent.SYSTEM_PROMPT);
      (py"system", session_context name phone);
      (py"user", user_input) ] in
  let '(final_response, shown) :=
    match graph with
    | None =>
      ([], [UiError py"Server not configured. Please set GROQ_API_KEY in your environment and restart."])
    | Some graph =>
      let '(tool_called_name, final_response) := parse_response (graph inputs) in
      (final_response,
       [UiChatMessage py"assistant" (or_else final_response py"(No response)")]
       ++ (if truthy tool_called_name
              && negb (bool_decide (tool_called_name = py"None"))
           then [UiCaption (py"Tool used: " ++ tool_called_name)]
           else []))
    end in
  (append st (Entry py"assistant" (or_else final_response [])),
   UiChatMessage py"user" user_input :: shown).

(** Lines 149-233: one run of the script. *)
Definition run (graph : option Main.graph_stream) (uuid4 : pystr)
    (w : widgets) (st : session_state) : session_state * list ui_event :=
  let st := if start w then on_start uuid4 w st else st in
  let st := if clear w then on_clear st else st in
  let history := show <$> messages st in
  match chat_input w st with
  | Some (c :: text) =>
    let '(st', shown) := on_message graph (c :: text) st in
    (st', header ++ history ++ shown)
  | _ => (st, header ++ history)
  end.

End AppUI.

(** Widgets and forms used as examples. *)
Definition form_of (name phone : pystr) (pressed : bool) : Client.registration_form :=
  {| Client.user_name := name; Client.phone_number := phone;
     Client.submitted := pressed |}.

Definition typing (response_mode : Main.mode) (text : pystr) : Client.chat_widgets :=
  {| Client.input_mode_selector := Main.chat;
     Client.response_mode_selector := response_mode;
     Client.user_input := Some text |}.

(** A backend that cannot be reached. *)
Definition backend_down : Client.payload -> Client.http_result :=
  fun p => Client.HttpRequestException py"Connection refused".

(** [UiTts] does not occur. *)
Definition silent (e : ui_event) : Prop :=
  match e with
  | UiTts _ _ => False
  | _ => True
  end.

Definition is_caption (e : ui_event) : bool :=
  match e with
  | UiCaption _ => true
  | _ => false
  end.

(** The sidebar of src/app.py with "Start session" pressed. *)
Definition starting (name phone : pystr) : AppUI.widgets :=
  {| AppUI.name_input := name; AppUI.phone_input := phone;
     AppUI.start := true; AppUI.clear := false; AppUI.user_input := None |}.

(** An agent that requests the emergency tool and then answers. *)
Definition alarmed_graph : Main.graph_stream :=
  fun _ => [ single py"agent" [requesting emergency_name [(py"phone", py"+1555")] None];
             single py"agent" [saying py"Help is on the way."] ].

(** ** Facts about Python strings *)

Lemma strip_empty : Py.strip [] = [].
Proof. reflexivity. Qed.

Example strip_ascii :
  Py.strip (py"  Hi there " ++ Py.nl) = py"Hi there".
Proof. vm_compute. reflexivity. Qed.

(** Inner whitespace stays, and the no-break spaces U+00A0 and U+202F are
    whitespace as well. *)
Example strip_unicode :
  Py.strip ([160%N] ++ py"a  b" ++ [8239%N]) = py"a  b".
Proof. vm_compute. reflexivity. Qed.

Lemma lstrip_not_space (c : Py.char) (s : pystr) :
  Py.isspace c = false -> Py.lstrip (c :: s) = c :: s.
Proof. intros H. simpl. by rewrite H. Qed.

(** A text that neither starts nor ends with whitespace is left as it is. *)
Lemma strip_id (c d : Py.char) (s : pystr) :
  Py.isspace c = false -> Py.isspace d = false ->
  Py.strip (c :: s ++ [d]) = c :: s ++ [d].
Proof.
  intros Hc Hd. unfold Py.strip, Py.rstrip.
  rewrite (lstrip_not_space c) by done.
  change (c :: s ++ [d]) with ((c :: s) ++ [d]).
  rewrite rev_unit, (lstrip_not_space d) by done.
  by rewrite <- rev_unit, rev_involutive.
Qed.

(** ** The loops of [parse_response] as folds *)

Lemma process_item_tool (st : pystr * pystr) (it : item) :
  (process_item st it).1 = default st.1 (request_of it).
Proof.
  destruct it as [m|o]; [|done].
  destruct m as [c [|tc calls]| | |]; simpl; try done.
  unfold update_tool; simpl.
  destruct (tc_name tc) as [n|]; [|done].
  by destruct (Py.truthy n).
Qed.

Lemma process_item_text (st : pystr * pystr) (it : item) :
  (process_item st it).2 = st.2 ++ text_of it.
Proof.
  destruct it as [m|o]; simpl; [|by rewrite app_nil_r].
  unfold update_text. destruct (content m); [done|by rewrite app_nil_r].
Qed.

Lemma default_last_cons {A} (d x : A) (l : list A) :
  default d (last (x :: l)) = default x (last l).
Proof. rewrite last_cons. by destruct (last l). Qed.

Lemma foldl_process_item (its : list item) (st : pystr * pystr) :
  foldl process_item st its
  = (default st.1 (last (omap request_of its)), st.2 ++ (its ≫= text_of)).
Proof.
  revert st. induction its as [|it its IH]; intros [t r]; simpl.
  { by rewrite app_nil_r. }
  rewrite IH, process_item_tool, process_item_text; simpl.
  rewrite <- (assoc_L (++)). f_equal.
  destruct (request_of it) as [n|] eqn:Hreq; simpl; [|done].
  by rewrite default_last_cons.
Qed.

Lemma foldl_process_step (stream : list step) (st : pystr * pystr) :
  foldl process_step st stream = foldl process_item st (processed stream).
Proof.
  revert st. induction stream as [|s stream IH]; intros st; [done|].
  simpl. rewrite IH. unfold processed at 2. simpl.
  by rewrite foldl_app.
Qed.

(** The result of [parse_response] in closed form. *)
Lemma parse_response_eq (stream : list step) :
  parse_response stream
  = (default py"None" (last (omap request_of (processed stream))),
     Py.strip (processed stream ≫= text_of)).
Proof.
  unfold parse_response. rewrite foldl_process_step, foldl_process_item. done.
Qed.

(** ** The invoked tool *)

(** With both requests in one message, the first one is the one kept. *)
Lemma first_call_of_a_message (k : pystr) (c : content_t) (n : pystr)
    (a : list (pystr * pystr)) (i : option pystr) (calls : list tool_call) :
  recognised k -> Py.truthy n = true ->
  (parse_response [single k [Msg (AIMessage c (ToolCall (Some n) a i :: calls))]]).1 = n.
Proof.
  intros Hk Hn. rewrite parse_response_eq.
  assert (processed [single k [Msg (AIMessage c (ToolCall (Some n) a i :: calls))]]
          = [Msg (AIMessage c (ToolCall (Some n) a i :: calls))]) as ->.
  { unfold processed; simpl. rewrite app_nil_r.
    destruct Hk as [-> | ->]; reflexivity. }
  simpl. by rewrite Hn.
Qed.

(** C1, as the specification states it, fails: in [two_requests] the first
    request observed is the therapist tool, and [parse_response] returns
    the emergency tool. *)
Lemma first_tool_wins_fails :
  tool_requests two_requests = [ask_name; emergency_name]
  /\ (parse_response two_requests).1 = emergency_name
  /\ ~ first_tool_wins two_requests.
Proof.
  assert (tool_requests two_requests = [ask_name; emergency_name]) as Hreq
    by (vm_compute; reflexivity).
  assert ((parse_response two_requests).1 = emergency_name) as Hres
    by (vm_compute; reflexivity).
  split; [exact Hreq|]. split; [exact Hres|].
  intros Hfirst. unfold first_tool_wins in Hfirst.
  rewrite Hreq, Hres in Hfirst. specialize (Hfirst (le_n 2)).
  vm_compute in Hfirst. discriminate Hfirst.
Qed.

(** C1 (amended): for every event stream, the invoked tool returned by
    [parse_response] is the name of the first tool call of the LAST
    processed message that carries a non-empty [tool_calls] list whose
    first entry has a non-empty name, and the string "None" when no
    processed message does.  Every such message overwrites the name kept
    so far. *)
Theorem last_request_wins (stream : list step) :
  (parse_response stream).1
  = default py"None" (last (omap request_of (processed stream))).
Proof. by rewrite parse_response_eq. Qed.

(** ** The final text *)

(** C4, as the specification states it, fails: the step [both_keys]
    carries the fragments "Hi " and "there" and nothing else, and the
    final text is "Hi": the fragment under 'agent' is not part of it. *)
Lemma every_message_text_fails :
  parse_response [both_keys] = (py"None", py"Hi")
  /\ Py.contains py"there" (text_of_every_message [both_keys]) = true
  /\ Py.contains py"there" (parse_response [both_keys]).2 = false
  /\ (parse_response [both_keys]).2 <> text_of_every_message [both_keys].
Proof.
  assert (parse_response [both_keys] = (py"None", py"Hi")) as Hres
    by (vm_compute; reflexivity).
  split; [exact Hres|]. split; [vm_compute; reflexivity|].
  split; [vm_compute; reflexivity|].
  rewrite Hres. vm_compute. discriminate.
Qed.

(** A step under a key other than '__root__' and 'agent' is passed over,
    whatever it holds. *)
Lemma other_keys_ignored :
  messages_to_process under_tools = []
  /\ parse_response [under_tools] = (py"None", []).
Proof. split; vm_compute; reflexivity. Qed.

(** C4 (amended): for every event stream, the final text returned by
    [parse_response] is the concatenation, in arrival order and with no
    separator, of the string content of every [BaseMessage] object in the
    list the parser takes from each event (the '__root__' list when that
    entry is a dictionary holding 'messages', otherwise the 'agent' list
    under the same condition, otherwise nothing), trimmed of leading and
    trailing whitespace.  A stream of one event that holds the fragments
    "Hi " and "there" under one of the two keys yields ("None", "Hi there"). *)
Theorem final_text_is_processed_text :
  (forall stream : list step,
     (parse_response stream).2 = Py.strip (processed stream ≫= text_of))
  /\ parse_response [single py"agent" [saying py"Hi "; saying py"there"]]
     = (py"None", py"Hi there")
  /\ parse_response [single py"__root__" [saying py"Hi "; saying py"there"]]
     = (py"None", py"Hi there").
Proof.
  split; [intros stream; by rewrite parse_response_eq|].
  split; vm_compute; reflexivity.
Qed.

(** ** Tool results in the stream *)

Lemma recognised_messages (k : pystr) (msgs : list item) :
  recognised k -> messages_to_process (single k msgs) = msgs.
Proof. intros [-> | ->]; reflexivity. Qed.

Lemma processed_app (pre post : list step) :
  processed (pre ++ post) = processed pre ++ processed post.
Proof. apply bind_app. Qed.

Lemma processed_cons (s : step) (stream : list step) :
  processed (s :: stream) = messages_to_process s ++ processed stream.
Proof. reflexivity. Qed.

Lemma unrecognised_messages (k : pystr) (msgs : list item) :
  k <> py"__root__" -> k <> py"agent" ->
  messages_to_process (single k msgs) = [].
Proof.
  intros Hroot Hagent. unfold messages_to_process, single.
  by rewrite !lookup_singleton_ne.
Qed.

(** C5, as the specification states it, fails: the tool node of the agent
    graph delivers the tool result in an event under the key 'tools'.
    With the request of call_emergency_services under 'agent' and the
    tool-result event "Calling now" under 'tools', the tool name is
    captured and the text of the tool result is not accumulated. *)
Lemma tool_result_under_tools_lost :
  parse_response
    [ single py"agent" [requesting emergency_name [(py"phone", py"+1555")] (Some py"call_2")];
      single py"tools" [tool_result py"Calling now" py"call_2"] ]
  = (emergency_name, [])
  /\ parse_response
       [ single py"agent" [requesting emergency_name [(py"phone", py"+1555")] (Some py"call_2")];
         single py"tools" [tool_result py"Calling now" py"call_2"] ]
     <> (emergency_name, py"Calling now").
Proof.
  assert (parse_response
            [ single py"agent" [requesting emergency_name [(py"phone", py"+1555")] (Some py"call_2")];
              single py"tools" [tool_result py"Calling now" py"call_2"] ]
          = (emergency_name, [])) as H by (vm_compute; reflexivity).
  split; [exact H|]. rewrite H. vm_compute. discriminate.
Qed.

(** C5 (amended): when an assistant message requests
    call_emergency_services and a later tool-result event carries the text
    "Calling now", both events being delivered under one of the two keys
    the parser reads ('__root__' or 'agent') and the events around them
    giving no message to process, [parse_response] returns
    (call_emergency_services, "Calling now"): a tool-result message that
    is processed adds its content to the buffer as an assistant message
    with the same content does.  When the tool-result event is delivered
    under any other key, such as 'tools', the tool name is still captured
    and the text of the tool result is not accumulated: the result is
    (call_emergency_services, ""). *)
Theorem emergency_request_then_result (k1 k2 k3 : pystr)
    (args : list (pystr * pystr)) (call_id : option pystr) (result_id : pystr)
    (pre mid post : list step) :
  recognised k1 -> recognised k2 ->
  k3 <> py"__root__" -> k3 <> py"agent" ->
  processed pre = [] -> processed mid = [] -> processed post = [] ->
  parse_response (pre ++ single k1 [requesting emergency_name args call_id]
                      :: mid ++ single k2 [tool_result py"Calling now" result_id]
                      :: post)
  = (emergency_name, py"Calling now")
  /\ parse_response (pre ++ single k1 [requesting emergency_name args call_id]
                         :: mid ++ single k3 [tool_result py"Calling now" result_id]
                         :: post)
     = (emergency_name, [])
  /\ forall (st : pystr * pystr) (text : pystr),
       process_item st (tool_result text result_id) = (st.1, st.2 ++ text)
       /\ (process_item st (tool_result text result_id)).2
          = (process_item st (saying text)).2.
Proof.
  intros Hk1 Hk2 Hroot Hagent Hpre Hmid Hpost.
  split; [|split; [|by intros [t r] text]].
  - rewrite parse_response_eq.
    rewrite processed_app, processed_cons, processed_app, processed_cons.
    rewrite Hpre, Hmid, Hpost, !recognised_messages by done.
    vm_compute. reflexivity.
  - rewrite parse_response_eq.
    rewrite processed_app, processed_cons, processed_app, processed_cons.
    rewrite Hpre, Hmid, Hpost, recognised_messages by done.
    rewrite unrecognised_messages by done.
    vm_compute. reflexivity.
Qed.

Lemma emergency_request_then_result_witness :
  recognised py"agent" /\ recognised py"__root__"
  /\ py"tools" <> py"__root__" /\ py"tools" <> py"agent"
  /\ processed [under_tools] = []
  /\ parse_response
       ([] ++ single py"agent" [requesting emergency_name [(py"phone", py"+1555")] None]
           :: [under_tools]
           ++ single py"__root__" [tool_result py"Calling now" py"call_2"] :: [])
     = (emergency_name, py"Calling now")
  /\ parse_response
       ([] ++ single py"agent" [requesting emergency_name [(py"phone", py"+1555")] None]
           :: [under_tools]
           ++ single py"tools" [tool_result py"Calling now" py"call_2"] :: [])
     = (emergency_name, []).
Proof.
  assert (processed [under_tools] = []) as Hmid by (vm_compute; reflexivity).
  assert (py"tools" <> py"__root__") as Hroot by (vm_compute; discriminate).
  assert (py"tools" <> py"agent") as Hagent by (vm_compute; discriminate).
  split; [by right|]. split; [by left|].
  split; [exact Hroot|]. split; [exact Hagent|]. split; [exact Hmid|].
  destruct (emergency_request_then_result py"agent" py"__root__" py"tools"
              [(py"phone", py"+1555")] None py"call_2" [] [under_tools] []
              (or_intror eq_refl) (or_introl eq_refl) Hroot Hagent
              eq_refl Hmid eq_refl) as (H1 & H2 & _).
  split; [exact H1|exact H2].
Defined.

(** ** Steps with both keys *)

Lemma root_first (s : step) (msgs : list item) :
  s !! py"__root__" = Some (StateDict (Some msgs)) ->
  messages_to_process s = msgs.
Proof. intros H. unfold messages_to_process. by rewrite H. Qed.

Lemma root_is_not_agent : py"agent" <> py"__root__".
Proof. vm_compute. discriminate. Qed.

(** Two streams that differ in one step are parsed alike when that step
    gives the same messages to process. *)
Lemma parse_response_congr (pre post : list step) (s s' : step) :
  messages_to_process s = messages_to_process s' ->
  parse_response (pre ++ s :: post) = parse_response (pre ++ s' :: post).
Proof.
  intros H. rewrite !parse_response_eq, !processed_app.
  unfold processed at 2 5. simpl. by rewrite H.
Qed.

(** C10: when a step holds a message list under '__root__' and one under
    'agent', [parse_response] processes the '__root__' list only: removing
    the 'agent' entry, or putting any other message list there, changes
    neither the invoked tool nor the final text. *)
Theorem root_shadows_agent (pre post : list step) (s : step)
    (root_msgs agent_msgs : list item) :
  s !! py"__root__" = Some (StateDict (Some root_msgs)) ->
  s !! py"agent" = Some (StateDict (Some agent_msgs)) ->
  messages_to_process s = root_msgs
  /\ parse_response (pre ++ s :: post)
     = parse_response (pre ++ delete py"agent" s :: post)
  /\ forall other : list item,
       parse_response (pre ++ s :: post)
       = parse_response (pre ++ <[py"agent" := StateDict (Some other)]> s :: post).
Proof.
  intros Hroot _. split; [by apply root_first|].
  split; [|intros other]; apply parse_response_congr;
    rewrite (root_first s root_msgs Hroot); symmetry; apply root_first.
  - rewrite lookup_delete_ne; [done|apply root_is_not_agent].
  - rewrite lookup_insert_ne; [done|apply root_is_not_agent].
Qed.

Lemma root_shadows_agent_witness :
  both_keys !! py"__root__" = Some (StateDict (Some [saying py"Hi "]))
  /\ both_keys !! py"agent" = Some (StateDict (Some [saying py"there"]))
  /\ messages_to_process both_keys = [saying py"Hi "]
  /\ parse_response ([] ++ both_keys :: [])
     = parse_response ([] ++ delete py"agent" both_keys :: []).
Proof.
  assert (both_keys !! py"__root__" = Some (StateDict (Some [saying py"Hi "])))
    as Hroot by (vm_compute; reflexivity).
  assert (both_keys !! py"agent" = Some (StateDict (Some [saying py"there"])))
    as Hagent by (vm_compute; reflexivity).
  split; [exact Hroot|]. split; [exact Hagent|].
  destruct (root_shadows_agent [] [] both_keys _ _ Hroot Hagent) as (H1 & H2 & _).
  split; [exact H1|exact H2].
Defined.

(** ** The emergency tool without telephony settings *)

(** In src/app.py the settings are checked before the call is attempted:
    when one of the three settings is unset or empty, or the client class
    is missing, the client is not used and the fixed message is returned,
    for every phone number. *)
Lemma app_emergency_call_guarded (cfg : telephony)
    (TwilioClient : option twilio_client) (phone : pystr) :
  App.is_set (TWILIO_ACCOUNT_SID cfg) && App.is_set (TWILIO_AUTH_TOKEN cfg)
    && App.is_set (TWILIO_FROM_NUMBER cfg) = false
  \/ TwilioClient = None ->
  App.call_emergency_services cfg TwilioClient phone = dial_directly
  /\ dial_directly <> []
  /\ Py.contains py"local emergency number" dial_directly = true.
Proof.
  intros H. split; [|split; [vm_compute; discriminate|vm_compute; reflexivity]].
  unfold App.call_emergency_services.
  destruct H as [-> | ->]; [|destruct (_ && _)]; vm_compute; reflexivity.
Qed.

Lemma app_emergency_call_guarded_witness :
  App.call_emergency_services no_telephony (Some twilio_accepts) py"+15550001111"
  = dial_directly.
Proof.
  apply (app_emergency_call_guarded no_telephony (Some twilio_accepts)).
  left. reflexivity.
Defined.

(** C2 fails on the backend: [call_emergency_services] of
    src/backend/ai_agent.py hands the call to [call_emergency_contact],
    which checks nothing before it builds the client.  With no setting set
    the client raises, and for every number, +15550001111 among them, the
    text returned does not contain "local emergency number"; with a client
    that accepts the request, the call is placed although no setting is
    set.  The tool of src/app.py returns the direct-dial text on the same
    input. *)
Theorem backend_emergency_call_not_guarded :
  (forall phone : pystr,
     Agent.call_emergency_services no_telephony twilio_requires_credentials phone
     = py"Emergency call attempt failed. Error: Credentials are required to create a TwilioClient. Please contact a local emergency service immediately by dialing 911 (or your local equivalent).")
  /\ Py.contains py"local emergency number"
       (Agent.call_emergency_services no_telephony twilio_requires_credentials
          py"+15550001111") = false
  /\ Agent.call_emergency_services no_telephony twilio_accepts py"+15550001111"
     = py"A critical situation alert has been successfully triggered. The emergency helpline is now calling the number: +15550001111. The call SID is CA0001. Please wait a moment."
  /\ App.call_emergency_services no_telephony (Some twilio_requires_credentials)
       py"+15550001111" = dial_directly.
Proof.
  split; [intros phone; vm_compute; reflexivity|].
  repeat split; vm_compute; reflexivity.
Qed.

(** ** The therapist tool when the provider fails *)

(** A response of the local model that does not have the expected shape is
    answered like a failure of the call. *)
Lemma query_medgemma_malformed (chat : Tools.ollama_chat) (prompt : pystr) :
  chat py"alibayram/medgemma:4b"
       [(py"system", Tools.system_prompt); (py"user", prompt)] = Returned None ->
  Tools.query_medgemma chat prompt = technical_difficulties.
Proof. intros H. unfold Tools.query_medgemma. by rewrite H. Qed.

(** C3: for every prompt, when the call to the provider raises,
    [ask_mental_health_specialist] returns the fixed fallback string, both
    in the backend (src/backend/ai_agent.py with [query_medgemma]) and in
    src/app.py; the two fallback strings are the same text. *)
Theorem specialist_falls_back (prompt : pystr)
    (chat : Tools.ollama_chat) (llm : App.chat_model) (e1 e2 : pystr) :
  chat py"alibayram/medgemma:4b"
       [(py"system", Tools.system_prompt); (py"user", prompt)] = Raised e1 ->
  llm [App.SystemMsg App.system_prompt; App.HumanMsg prompt] = Raised e2 ->
  Agent.ask_mental_health_specialist chat prompt = technical_difficulties
  /\ App.ask_mental_health_specialist (Some llm) prompt = technical_difficulties
  /\ Tools.fallback = technical_difficulties
  /\ App.fallback = technical_difficulties.
Proof.
  intros Hchat Hllm.
  split; [|split; [|split; vm_compute; reflexivity]].
  - unfold Agent.ask_mental_health_specialist, Tools.query_medgemma.
    by rewrite Hchat.
  - unfold App.ask_mental_health_specialist.
    rewrite Hllm. vm_compute. reflexivity.
Qed.

Lemma specialist_falls_back_witness :
  Agent.ask_mental_health_specialist ollama_down py"I feel low"
  = technical_difficulties
  /\ App.ask_mental_health_specialist (Some groq_down) py"I feel low"
     = technical_difficulties.
Proof.
  destruct (specialist_falls_back py"I feel low" ollama_down groq_down
              py"Failed to connect to Ollama" py"Connection error."
              eq_refl eq_refl) as (Hbackend & Happ & _).
  split; [exact Hbackend|exact Happ].
Defined.

(** ** The session shim *)

Section Shim.
Import Main.
Variable graph : graph_stream.

(** What [ask_question] answers once the name and the phone are known. *)
Lemma ask_question_eq (query : Query) (SESSIONS : sessions) :
  ask_question graph query SESSIONS
  = let name := match SESSIONS !! session_id query with
                | Some s => session_name s | None => py"there" end in
    let phone := match SESSIONS !! session_id query with
                 | Some s => session_phone s | None => [] end in
    let turn := parse_response
                  (graph [ (py"system", Agent.SYSTEM_PROMPT);
                           (py"system", session_context name phone);
                           (py"user", message query) ]) in
    (SESSIONS,
     {| response := turn.2; tool_called := turn.1;
        chosen_response_mode := default (input_mode query) (response_mode query) |}).
Proof.
  unfold ask_question. cbv zeta.
  match goal with
  | |- context [parse_response ?stream] => destruct (parse_response stream) as [t r]
  end.
  simpl. by destruct (response_mode query).
Qed.

Lemma ask_question_store (query : Query) (SESSIONS : sessions) :
  (ask_question graph query SESSIONS).1 = SESSIONS.
Proof. by rewrite ask_question_eq. Qed.

(** C6: for every session id that is not in the store, [ask_question]
    answers the request: the name resolves to "there", the phone to the
    empty string, and the turn is run with the session context built from
    these two values. *)
Theorem unknown_session_defaults (query : Query) (SESSIONS : sessions) :
  SESSIONS !! session_id query = None ->
  ask_question graph query SESSIONS
  = let turn := parse_response
                  (graph [ (py"system", Agent.SYSTEM_PROMPT);
                           (py"system", session_context py"there" []);
                           (py"user", message query) ]) in
    (SESSIONS,
     {| response := turn.2; tool_called := turn.1;
        chosen_response_mode := default (input_mode query) (response_mode query) |}).
Proof. intros H. rewrite ask_question_eq. by rewrite H. Qed.

(** C7: for every name and phone, after [start_session] a question asked
    with the returned session id runs the agent on a session context that
    holds the phone string as it was registered, once after "User phone: "
    and once after "always pass this exact phone number: ". *)
Theorem registered_phone_verbatim (uuid4 : pystr) (req : StartSessionRequest)
    (query : Query) (SESSIONS : sessions) :
  session_id query = resp_session_id (start_session uuid4 req SESSIONS).2 ->
  ask_question graph query (start_session uuid4 req SESSIONS).1
  = (let turn := parse_response
                   (graph [ (py"system", Agent.SYSTEM_PROMPT);
                            (py"system", session_context (req_name req) (req_phone req));
                            (py"user", message query) ]) in
     ((start_session uuid4 req SESSIONS).1,
      {| response := turn.2; tool_called := turn.1;
         chosen_response_mode := default (input_mode query) (response_mode query) |}))
  /\ session_context (req_name req) (req_phone req)
     = py"User name: " ++ req_name req ++ py". User phone: " ++ req_phone req
       ++ py". When using call_emergency_services(phone), always pass this exact phone number: "
       ++ req_phone req ++ py". Agent name is Friday.".
Proof.
  intros Hsid. split; [|reflexivity].
  rewrite ask_question_eq. simpl in Hsid. rewrite Hsid. simpl.
  by rewrite lookup_insert_eq.
Qed.

Lemma serve_all_asks (SESSIONS : sessions) (queries : list Query) :
  serve_all graph SESSIONS (PostAsk <$> queries) = SESSIONS.
Proof.
  unfold serve_all. induction queries as [|q queries IH]; [done|].
  simpl. pose proof (ask_question_store q SESSIONS) as Hq.
  destruct (ask_question graph q SESSIONS) as [S' a]. simpl in *. by subst S'.
Qed.

(** A registration writes the entry of the identifier it drew and no
    other. *)
Lemma start_session_writes (uuid4 : pystr) (req : StartSessionRequest)
    (SESSIONS : sessions) (sid : pystr) :
  (start_session uuid4 req SESSIONS).1 !! sid
  = if decide (uuid4 = sid)
    then Some (Session (req_name req) (req_phone req))
    else SESSIONS !! sid.
Proof. simpl. apply lookup_insert. Qed.

(** An entry is not touched by any sequence of requests, as long as no
    later registration draws its identifier again. *)
Lemma entry_survives (sid : pystr) (rs : list request) (SESSIONS : sessions) :
  Forall (draws_other sid) rs ->
  serve_all graph SESSIONS rs !! sid = SESSIONS !! sid.
Proof.
  unfold serve_all. intros H. revert SESSIONS.
  induction H as [|r rs Hr _ IH]; intros SESSIONS; [done|].
  simpl. rewrite IH. destruct r as [|u req|q]; simpl; [done| |].
  - rewrite lookup_insert_ne; done.
  - pose proof (ask_question_store q SESSIONS) as Hq.
    destruct (ask_question graph q SESSIONS) as [S' a]. simpl in *. by subst S'.
Qed.

(** C8: no sequence of [ask_question] calls changes the store: every entry
    written by a registration, and every other entry, is the same after
    the calls as before, and so is the store after a single call. *)
Theorem asking_leaves_store (SESSIONS : sessions) :
  (forall queries : list Query,
     serve_all graph SESSIONS (PostAsk <$> queries) = SESSIONS)
  /\ (forall (queries : list Query) (sid : pystr),
        serve_all graph SESSIONS (PostAsk <$> queries) !! sid = SESSIONS !! sid)
  /\ (forall query : Query, (ask_question graph query SESSIONS).1 = SESSIONS).
Proof.
  split; [apply serve_all_asks|].
  split; [intros queries sid; by rewrite serve_all_asks|].
  intros query. apply ask_question_store.
Qed.

End Shim.

Lemma unknown_session_defaults_witness :
  (∅ : Main.sessions) !! Main.session_id (question py"no-such-session" py"hello") = None
  /\ Main.ask_question silent_graph (question py"no-such-session" py"hello") ∅
     = (∅, {| Main.response := []; Main.tool_called := py"None";
              Main.chosen_response_mode := Main.chat |}).
Proof.
  assert ((∅ : Main.sessions) !! Main.session_id (question py"no-such-session" py"hello") = None)
    as Hnone by (vm_compute; reflexivity).
  split; [exact Hnone|].
  rewrite (unknown_session_defaults silent_graph
             (question py"no-such-session" py"hello") ∅ Hnone).
  reflexivity.
Defined.

Lemma registered_phone_verbatim_witness :
  Main.session_id (question py"3f2c" py"hello")
  = Main.resp_session_id (Main.start_session py"3f2c" ada ∅).2
  /\ Main.session_context py"Ada" py"+1555"
     = py"User name: Ada. User phone: +1555. When using call_emergency_services(phone), always pass this exact phone number: +1555. Agent name is Friday.".
Proof.
  split; [reflexivity|].
  destruct (registered_phone_verbatim silent_graph py"3f2c" ada
              (question py"3f2c" py"hello") ∅ eq_refl) as [_ H].
  simpl in H. rewrite H. vm_compute. reflexivity.
Defined.

(** ** The retry loop of the voice client *)

Section Retry.
Import Frontend.

(** C9, as the specification states it, fails: when every request fails,
    the client pauses for 1 second and for 2 seconds and never for 4; the
    third failure ends the loop with the error. *)
Lemma backoff_1_2_4_fails :
  sleeps (handle_tts_generation_and_play tts_down py"Hello" py"Kore").2 = [1; 2]
  /\ posts (handle_tts_generation_and_play tts_down py"Hello" py"Kore").2 = 3
  /\ ~ backoff_1_2_4 tts_down.
Proof.
  split; [vm_compute; reflexivity|]. split; [vm_compute; reflexivity|].
  intros [Hsleeps _]. vm_compute in Hsleeps. discriminate Hsleeps.
Qed.

(** C9 (amended): when every request fails with a request exception, the
    client makes 3 requests in all (the first and 2 retries), pauses 1
    second after the first failure and 2 seconds after the second, and
    after the third failure shows an error, without a further pause, and
    returns False.  The whole run is: the notice, the first request, the
    warning and the pause of 1 second, the second request, the warning and
    the pause of 2 seconds, the third request, the error. *)
Theorem tts_three_attempts (post : nat -> attempt) (text voice : pystr) :
  (forall i, i < 3 -> exists e, post i = RequestException e) ->
  (handle_tts_generation_and_play post text voice).1 = false
  /\ posts (handle_tts_generation_and_play post text voice).2 = 3
  /\ sleeps (handle_tts_generation_and_play post text voice).2 = [1; 2]
  /\ exists e,
       post 2 = RequestException e
       /\ last (handle_tts_generation_and_play post text voice).2
          = Some (StError (py"TTS API failed after multiple retries. Please check the backend service: " ++ e))
       /\ (handle_tts_generation_and_play post text voice).2
          = [ StInfo py"Generating voice response using model: gemini-2.5-flash-preview-tts...";
              HttpPost;
              StWarning py"TTS API failed (Attempt 1/3). Retrying in 1 seconds...";
              Sleep 1;
              HttpPost;
              StWarning py"TTS API failed (Attempt 2/3). Retrying in 2 seconds...";
              Sleep 2;
              HttpPost;
              StError (py"TTS API failed after multiple retries. Please check the backend service: " ++ e) ].
Proof.
  intros H.
  destruct (H 0) as [e0 H0]; [lia|].
  destruct (H 1) as [e1 H1]; [lia|].
  destruct (H 2) as [e2 H2]; [lia|].
  unfold handle_tts_generation_and_play. simpl.
  rewrite H0. simpl. rewrite H1. simpl. rewrite H2. simpl.
  repeat split; try reflexivity.
  exists e2. repeat split; reflexivity.
Qed.

End Retry.

Lemma tts_three_attempts_witness :
  (forall i, i < 3 -> exists e, tts_down i = Frontend.RequestException e)
  /\ (Frontend.handle_tts_generation_and_play tts_down py"Hello" py"Kore").1 = false
  /\ Frontend.posts (Frontend.handle_tts_generation_and_play tts_down py"Hello" py"Kore").2 = 3
  /\ Frontend.sleeps (Frontend.handle_tts_generation_and_play tts_down py"Hello" py"Kore").2
     = [1; 2]
  /\ (Frontend.handle_tts_generation_and_play tts_down py"Hello" py"Kore").2
     = [ Frontend.StInfo py"Generating voice response using model: gemini-2.5-flash-preview-tts...";
         Frontend.HttpPost;
         Frontend.StWarning py"TTS API failed (Attempt 1/3). Retrying in 1 seconds...";
         Frontend.Sleep 1;
         Frontend.HttpPost;
         Frontend.StWarning py"TTS API failed (Attempt 2/3). Retrying in 2 seconds...";
         Frontend.Sleep 2;
         Frontend.HttpPost;
         Frontend.StError py"TTS API failed after multiple retries. Please check the backend service: Connection refused" ].
Proof.
  assert (forall i, i < 3 -> exists e, tts_down i = Frontend.RequestException e)
    as Hdown by (intros i _; eexists; reflexivity).
  split; [exact Hdown|].
  destruct (tts_three_attempts tts_down py"Hello" py"Kore" Hdown)
    as (Hr & Hposts & Hsleeps & e & He & _ & Hlog).
  split; [exact Hr|]. split; [exact Hposts|]. split; [exact Hsleeps|].
  rewrite Hlog. injection He as <-. vm_compute. reflexivity.
Defined.

(** ** What [strip] removes *)

Lemma lstrip_split (s : pystr) :
  exists a, s = a ++ Py.lstrip s /\ whitespace a.
Proof.
  induction s as [|c s (a & Hs & Ha)].
  { exists []. split; [done|constructor]. }
  simpl. destruct (Py.isspace c) eqn:Hc.
  - exists (c :: a). split; [simpl; by f_equal|by constructor].
  - exists []. split; [done|constructor].
Qed.

Lemma lstrip_head (s : pystr) (c : Py.char) (rest : pystr) :
  Py.lstrip s = c :: rest -> Py.isspace c = false.
Proof.
  induction s as [|d s IH]; [done|]. simpl.
  destruct (Py.isspace d) eqn:Hd; [done|]. by intros [= -> _].
Qed.

Lemma lstrip_whitespace (s : pystr) : whitespace s -> Py.lstrip s = [].
Proof. induction 1 as [|c s Hc _ IH]; [done|]. simpl. by rewrite Hc. Qed.

Lemma lstrip_app_keep (s t : pystr) :
  Py.lstrip s <> [] -> Py.lstrip (s ++ t) = Py.lstrip s ++ t.
Proof.
  induction s as [|c s IH]; [done|]. simpl.
  destruct (Py.isspace c); [exact IH|done].
Qed.

Lemma whitespace_rev (s : pystr) : whitespace s -> whitespace (rev s).
Proof. apply List.Forall_rev. Qed.

(** [strip] cuts a run of whitespace off each end and nothing else. *)
Lemma strip_split (s : pystr) :
  exists a b, s = a ++ Py.strip s ++ b /\ whitespace a /\ whitespace b.
Proof.
  destruct (lstrip_split s) as (a & Hs & Ha).
  destruct (lstrip_split (rev (Py.lstrip s))) as (b & Hr & Hb).
  exists a, (rev b). split; [|split; [done|by apply whitespace_rev]].
  unfold Py.strip, Py.rstrip. rewrite Hs at 1. f_equal.
  rewrite <- rev_app_distr, <- Hr. by rewrite rev_involutive.
Qed.

Lemma strip_trimmed (s : pystr) : trimmed (Py.strip s).
Proof.
  split.
  - intros c rest H. unfold Py.strip, Py.rstrip in H.
    destruct (Py.lstrip s) as [|d t] eqn:Hl; [done|].
    pose proof (lstrip_head _ _ _ Hl) as Hd.
    apply (f_equal (@rev _)) in H. rewrite rev_involutive in H.
    destruct (lstrip_split (rev (d :: t))) as (a & Ha & _).
    rewrite H in Ha. apply (f_equal (@rev _)) in Ha.
    rewrite rev_involutive, rev_app_distr, rev_involutive in Ha.
    simpl in Ha. by injection Ha as -> _.
  - intros c init H. unfold Py.strip, Py.rstrip in H.
    apply (f_equal (@rev _)) in H.
    rewrite rev_involutive, rev_unit in H. by apply lstrip_head in H.
Qed.

Lemma strip_nil_iff (s : pystr) : Py.strip s = [] <-> whitespace s.
Proof.
  split.
  - intros H. destruct (strip_split s) as (a & b & Hs & Ha & Hb).
    rewrite H in Hs. rewrite Hs. by apply Forall_app.
  - intros H. unfold Py.strip. by rewrite (lstrip_whitespace s H).
Qed.

Lemma strip_of_trimmed (s : pystr) : trimmed s -> Py.strip s = s.
Proof.
  intros [Hhead Hlast].
  destruct s as [|c s]; [done|].
  destruct (decide (s = [])) as [->|Hne].
  - pose proof (Hhead c [] eq_refl) as Hc. unfold Py.strip, Py.rstrip.
    simpl. rewrite Hc. simpl. by rewrite Hc.
  - destruct (exists_last Hne) as (init & d & ->).
    apply strip_id; [by apply (Hhead c (init ++ [d]))|].
    by apply (Hlast d (c :: init)).
Qed.

Lemma strip_idemp (s : pystr) : Py.strip (Py.strip s) = Py.strip s.
Proof. apply strip_of_trimmed, strip_trimmed. Qed.

(** ** Substrings *)

Lemma startswith_app (p s : pystr) : Py.startswith (p ++ s) p = true.
Proof.
  induction p as [|c p IH]; [by destruct s|].
  simpl. by rewrite N.eqb_refl.
Qed.

Lemma contains_startswith (needle hay : pystr) :
  Py.startswith hay needle = true -> Py.contains needle hay = true.
Proof. destruct hay; simpl; by intros ->. Qed.

Lemma contains_app (needle a b : pystr) :
  Py.contains needle (a ++ needle ++ b) = true.
Proof.
  induction a as [|c a IH].
  - change ([] ++ needle ++ b) with (needle ++ b).
    apply contains_startswith. apply (startswith_app needle b).
  - change ((c :: a) ++ needle ++ b) with (c :: (a ++ needle ++ b)).
    simpl. rewrite IH. by rewrite orb_true_r.
Qed.

Lemma contains_app_r (needle a b : pystr) :
  Py.contains needle b = true -> Py.contains needle (a ++ b) = true.
Proof.
  intros H. induction a as [|c a IH]; [done|].
  change ((c :: a) ++ b) with (c :: (a ++ b)).
  simpl. rewrite IH. by rewrite orb_true_r.
Qed.

(** ** Steps the parser cannot read *)

Lemma messages_to_process_entries (s : step) :
  messages_to_process s
  = match entry_messages (s !! py"__root__") with
    | Some msgs => msgs
    | None => default [] (entry_messages (s !! py"agent"))
    end.
Proof.
  unfold messages_to_process.
  destruct (s !! py"__root__") as [[|[msgs|]]|];
    destruct (s !! py"agent") as [[|[msgs'|]]|]; reflexivity.
Qed.

Lemma parse_response_skip (pre post : list step) (s : step) :
  messages_to_process s = [] ->
  parse_response (pre ++ s :: post) = parse_response (pre ++ post).
Proof.
  intros H. rewrite !parse_response_eq, !processed_app, processed_cons.
  by rewrite H.
Qed.

(** X1: an event that offers a message list neither under '__root__' nor
    under 'agent' (the key is missing, the value is not a dictionary, or
    the dictionary has no 'messages') is skipped: the result is the one of
    the stream without it. *)
Theorem unreadable_step_skipped (pre post : list step) (s : step) :
  entry_messages (s !! py"__root__") = None ->
  entry_messages (s !! py"agent") = None ->
  parse_response (pre ++ s :: post) = parse_response (pre ++ post).
Proof.
  intros Hroot Hagent. apply parse_response_skip.
  by rewrite messages_to_process_entries, Hroot, Hagent.
Qed.

Lemma unreadable_step_skipped_witness :
  parse_response ([single py"agent" [saying py"Hi"]] ++ unread_step :: [])
  = parse_response ([single py"agent" [saying py"Hi"]] ++ []).
Proof.
  apply (unreadable_step_skipped [single py"agent" [saying py"Hi"]] [] unread_step);
    vm_compute; reflexivity.
Defined.

(** X2: a stream with no event at all, or with unreadable events only,
    yields the tool name "None" and the empty text. *)
Theorem nothing_read_nothing_said (stream : list step) :
  Forall (fun s => entry_messages (s !! py"__root__") = None
                   /\ entry_messages (s !! py"agent") = None) stream ->
  parse_response stream = (py"None", []).
Proof.
  intros H. rewrite parse_response_eq.
  assert (processed stream = []) as ->; [|reflexivity].
  induction H as [|s stream [Hroot Hagent] _ IH]; [done|].
  rewrite processed_cons, IH, messages_to_process_entries, Hroot, Hagent. done.
Qed.

Lemma nothing_read_nothing_said_witness :
  parse_response [] = (py"None", [])
  /\ parse_response [unread_step; ∅] = (py"None", []).
Proof.
  split.
  - apply (nothing_read_nothing_said []). constructor.
  - apply (nothing_read_nothing_said [unread_step; ∅]).
    repeat constructor; vm_compute; reflexivity.
Defined.

(** X3: when the '__root__' entry of an event offers no message list, the
    parser falls back to the 'agent' entry: the event is read as if it had
    no '__root__' entry. *)
Theorem agent_read_when_root_unreadable (pre post : list step) (s : step) :
  entry_messages (s !! py"__root__") = None ->
  messages_to_process s = default [] (entry_messages (s !! py"agent"))
  /\ parse_response (pre ++ s :: post)
     = parse_response (pre ++ delete py"__root__" s :: post).
Proof.
  intros Hroot.
  assert (messages_to_process s = default [] (entry_messages (s !! py"agent"))) as Hs
    by (by rewrite messages_to_process_entries, Hroot).
  split; [exact Hs|]. apply parse_response_congr.
  rewrite Hs, messages_to_process_entries, lookup_delete_eq. simpl.
  by rewrite lookup_delete_ne by (intros H; symmetry in H; by apply root_is_not_agent).
Qed.

Lemma agent_read_when_root_unreadable_witness :
  messages_to_process root_not_a_dict = [saying py"Hello"]
  /\ parse_response [root_not_a_dict] = (py"None", py"Hello").
Proof.
  assert (entry_messages (root_not_a_dict !! py"__root__") = None) as Hroot
    by (vm_compute; reflexivity).
  destruct (agent_read_when_root_unreadable [] [] root_not_a_dict Hroot) as [Hm Hp].
  split.
  - rewrite Hm. vm_compute. reflexivity.
  - change [root_not_a_dict] with ([] ++ root_not_a_dict :: []).
    rewrite Hp. vm_compute. reflexivity.
Defined.

(** ** Streams put together *)

(** X4: for a stream made of two parts, the invoked tool is the one of
    the second part when that part holds a request, and the one of the
    first part otherwise; the text is the trimmed concatenation of the
    texts of the two parts. *)
Theorem parse_response_app (a b : list step) :
  (parse_response (a ++ b)).1
  = match last (omap request_of (processed b)) with
    | Some n => n
    | None => (parse_response a).1
    end
  /\ (parse_response (a ++ b)).2
     = Py.strip ((processed a ≫= text_of) ++ (processed b ≫= text_of)).
Proof.
  rewrite !parse_response_eq, processed_app. simpl. split.
  - rewrite omap_app, last_app.
    by destruct (last (omap request_of (processed b))).
  - by rewrite bind_app.
Qed.

(** ** What the parser looks at in a message list *)

Lemma request_of_message (its : list item) :
  omap request_of its = omap (fun m => request_of (Msg m)) (omap message_of its).
Proof.
  induction its as [|[m|o] its IH]; [done| |done].
  csimpl. by rewrite IH.
Qed.

Lemma text_of_message (its : list item) :
  its ≫= text_of = omap message_of its ≫= (fun m => text_of (Msg m)).
Proof.
  induction its as [|[m|o] its IH]; [done| |done].
  csimpl. by rewrite IH.
Qed.

(** X5: elements of a message list that are not message objects (raw
    dictionaries, tuples, None) are passed over: two streams whose
    processed message objects are the same, in the same order, give the
    same result. *)
Theorem only_message_objects_count (s1 s2 : list step) :
  omap message_of (processed s1) = omap message_of (processed s2) ->
  parse_response s1 = parse_response s2.
Proof.
  intros H. rewrite !parse_response_eq.
  by rewrite !request_of_message, !text_of_message, H.
Qed.

Lemma only_message_objects_count_witness :
  parse_response [single py"agent" [Raw RawNone; saying py"Hi"]]
  = parse_response [single py"__root__" [saying py"Hi"; Raw (RawTuple py"user" py"x")]].
Proof.
  apply (only_message_objects_count
           [single py"agent" [Raw RawNone; saying py"Hi"]]
           [single py"__root__" [saying py"Hi"; Raw (RawTuple py"user" py"x")]]).
  vm_compute. reflexivity.
Defined.

Lemma first_call_only_request (it : item) :
  request_of (first_call_only it) = request_of it.
Proof. by destruct it as [[c [|tc calls]| | |]|]. Qed.

Lemma first_call_only_text (it : item) :
  text_of (first_call_only it) = text_of it.
Proof. by destruct it as [[c [|tc calls]| | |]|]. Qed.

Lemma first_calls_only_messages (s : step) :
  messages_to_process (first_calls_only s) = first_call_only <$> messages_to_process s.
Proof.
  unfold messages_to_process, first_calls_only. rewrite !lookup_fmap.
  destruct (s !! py"__root__") as [[|[msgs|]]|];
    destruct (s !! py"agent") as [[|[msgs'|]]|]; reflexivity.
Qed.

(** X6: of every [tool_calls] list only the first entry is looked at:
    cutting every list down to its first entry changes neither the
    invoked tool nor the text. *)
Theorem later_calls_of_a_message_ignored (stream : list step) :
  parse_response (first_calls_only <$> stream) = parse_response stream.
Proof.
  rewrite !parse_response_eq.
  assert (processed (first_calls_only <$> stream)
          = first_call_only <$> processed stream) as ->.
  { induction stream as [|s stream IH]; [done|].
    rewrite fmap_cons, !processed_cons, IH, first_calls_only_messages.
    by rewrite fmap_app. }
  f_equal; [f_equal; f_equal|f_equal].
  - induction (processed stream) as [|it its IH]; [done|].
    csimpl. by rewrite first_call_only_request, IH.
  - rewrite list_fmap_bind. apply list_bind_ext; [|done].
    intros it. apply first_call_only_text.
Qed.

(** ** The shape of the result *)

Lemma parse_response_text_trimmed (stream : list step) :
  trimmed (parse_response stream).2.
Proof. rewrite parse_response_eq. apply strip_trimmed. Qed.

(** X7: the final text never begins or ends with whitespace, and it is
    the accumulated text with a run of whitespace cut off each end, the
    inner whitespace being kept. *)
Theorem final_text_trimmed (stream : list step) :
  trimmed (parse_response stream).2
  /\ exists a b,
       processed stream ≫= text_of = a ++ (parse_response stream).2 ++ b
       /\ whitespace a /\ whitespace b.
Proof.
  rewrite parse_response_eq. simpl. split; [apply strip_trimmed|apply strip_split].
Qed.

(** X8: the final text is empty exactly when every accumulated character
    is whitespace (in particular when no text was accumulated). *)
Theorem final_text_empty_iff (stream : list step) :
  (parse_response stream).2 = [] <-> whitespace (processed stream ≫= text_of).
Proof. rewrite parse_response_eq. apply strip_nil_iff. Qed.

Lemma request_of_Some (it : item) (n : pystr) :
  request_of it = Some n ->
  n <> [] /\ exists c tc calls, it = Msg (AIMessage c (tc :: calls)) /\ tc_name tc = Some n.
Proof.
  destruct it as [[c [|tc calls]| | |]|]; try done. simpl.
  destruct (tc_name tc) as [m|] eqn:Hname; [|done].
  destruct m as [|ch m]; [done|]. intros [= <-]. split; [done|].
  by exists c, tc, calls.
Qed.

Lemma invoked_tool_not_empty (stream : list step) :
  (parse_response stream).1 <> [].
Proof.
  rewrite parse_response_eq. simpl.
  destruct (last (omap request_of (processed stream))) as [n|] eqn:Hlast; [|done].
  apply last_Some in Hlast as [l' Hl].
  assert (n ∈ omap request_of (processed stream)) as Hin
    by (rewrite Hl; apply elem_of_app; right; apply list_elem_of_singleton; done).
  apply list_elem_of_omap in Hin as (it & _ & Hreq).
  by apply request_of_Some in Hreq as [Hne _].
Qed.

(** X9: the invoked tool is never the empty string: it is "None" when no
    processed message makes a request, and otherwise the non-empty name
    of the first tool call of a processed assistant message. *)
Theorem invoked_tool_origin (stream : list step) :
  (parse_response stream).1 <> []
  /\ ((parse_response stream).1 = py"None"
        /\ omap request_of (processed stream) = []
      \/ exists c tc calls,
           Msg (AIMessage c (tc :: calls)) ∈ processed stream
           /\ tc_name tc = Some (parse_response stream).1).
Proof.
  rewrite parse_response_eq. simpl.
  destruct (last (omap request_of (processed stream))) as [n|] eqn:Hlast; simpl.
  - apply last_Some in Hlast as [l' Hl].
    assert (n ∈ omap request_of (processed stream)) as Hin
      by (rewrite Hl; apply elem_of_app; right; apply list_elem_of_singleton; done).
    apply list_elem_of_omap in Hin as (it & Hit & Hreq).
    apply request_of_Some in Hreq as (Hne & c & tc & calls & -> & Hname).
    split; [done|]. right. by exists c, tc, calls.
  - split; [done|]. left. split; [done|].
    by apply last_None in Hlast.
Qed.

(** ** What the emergency tools return *)

Lemma lit_app_not_nil (c : ascii) (s : string) (t : pystr) :
  Py.lit (String c s) ++ t <> [].
Proof. done. Qed.

(** X10: the emergency tool of the backend never returns the empty
    string; when the call is created the text holds the number dialled and
    the call identifier as they are, and when the client raises it holds
    the error text and the instruction to dial 911. *)
Theorem backend_emergency_text (cfg : telephony) (Client : twilio_client)
    (phone : pystr) :
  Tools.call_emergency_contact cfg Client phone <> []
  /\ match Client (TWILIO_ACCOUNT_SID cfg) (TWILIO_AUTH_TOKEN cfg) phone
                  (TWILIO_FROM_NUMBER cfg) py"http://demo.twilio.com/docs/voice.xml" with
     | CallCreated sid =>
       Py.contains phone (Tools.call_emergency_contact cfg Client phone) = true
       /\ Py.contains sid (Tools.call_emergency_contact cfg Client phone) = true
     | CallRaised e =>
       Py.contains e (Tools.call_emergency_contact cfg Client phone) = true
       /\ Py.contains py"dialing 911" (Tools.call_emergency_contact cfg Client phone) = true
     end.
Proof.
  unfold Tools.call_emergency_contact.
  destruct (Client _ _ _ _ _) as [sid|e]; (split; [apply lit_app_not_nil|]); split.
  - apply contains_app.
  - rewrite !(assoc_L (++)). rewrite <- (assoc_L (++) _ sid). apply contains_app.
  - apply contains_app.
  - rewrite (assoc_L (++)). apply contains_app_r. vm_compute. reflexivity.
Qed.

(** X11: the emergency tool of src/app.py returns the direct-dial text
    exactly when one of the three settings is unset or empty or the client
    class is missing; the client is then not used, so the text is the same
    for every phone number and every client. *)
Theorem app_direct_dial_iff (cfg : telephony)
    (TwilioClient : option twilio_client) (phone : pystr) :
  App.call_emergency_services cfg TwilioClient phone = dial_directly
  <-> App.is_set (TWILIO_ACCOUNT_SID cfg) && App.is_set (TWILIO_AUTH_TOKEN cfg)
        && App.is_set (TWILIO_FROM_NUMBER cfg) = false
      \/ TwilioClient = None.
Proof.
  split; [|apply app_emergency_call_guarded].
  unfold App.call_emergency_services.
  destruct (_ && _); [|by left].
  destruct TwilioClient as [Client|]; [|by right].
  destruct (Client _ _ _ _ _) as [sid|e]; intros H; by vm_compute in H.
Qed.

(** X12: with the three settings set and the client class at hand, the
    emergency tool of src/app.py uses the client: the text it returns is
    not the direct-dial text, it holds the number dialled and the call
    identifier when the call is created, and the error text with the
    request to contact the local emergency services when the client
    raises. *)
Theorem app_emergency_text (cfg : telephony) (Client : twilio_client)
    (phone : pystr) :
  App.is_set (TWILIO_ACCOUNT_SID cfg) = true ->
  App.is_set (TWILIO_AUTH_TOKEN cfg) = true ->
  App.is_set (TWILIO_FROM_NUMBER cfg) = true ->
  App.call_emergency_services cfg (Some Client) phone <> dial_directly
  /\ match Client (TWILIO_ACCOUNT_SID cfg) (TWILIO_AUTH_TOKEN cfg) phone
                  (TWILIO_FROM_NUMBER cfg) py"http://demo.twilio.com/docs/voice.xml" with
     | CallCreated sid =>
       Py.contains phone (App.call_emergency_services cfg (Some Client) phone) = true
       /\ Py.contains sid (App.call_emergency_services cfg (Some Client) phone) = true
     | CallRaised e =>
       Py.contains e (App.call_emergency_services cfg (Some Client) phone) = true
       /\ Py.contains py"local emergency services"
            (App.call_emergency_services cfg (Some Client) phone) = true
     end.
Proof.
  intros Hsid Htoken Hfrom. unfold App.call_emergency_services.
  rewrite Hsid, Htoken, Hfrom. cbn [andb].
  destruct (Client _ _ _ _ _) as [sid|e]; (split; [by vm_compute|]); split.
  - apply contains_app.
  - rewrite !(assoc_L (++)). rewrite <- (assoc_L (++) _ sid). apply contains_app.
  - apply contains_app.
  - rewrite (assoc_L (++)). apply contains_app_r. vm_compute. reflexivity.
Qed.

Lemma app_emergency_text_witness :
  Py.contains py"+15550001111"
    (App.call_emergency_services telephony_set (Some twilio_accepts) py"+15550001111") = true
  /\ Py.contains py"HTTP 503"
       (App.call_emergency_services telephony_set (Some twilio_busy) py"+15550001111") = true.
Proof.
  split.
  - exact (proj1 (proj2 (app_emergency_text telephony_set twilio_accepts
                           py"+15550001111" eq_refl eq_refl eq_refl))).
  - exact (proj1 (proj2 (app_emergency_text telephony_set twilio_busy
                           py"+15550001111" eq_refl eq_refl eq_refl))).
Defined.

(** ** What the therapist tools return *)

Lemma trimmed_fixpoint (s : pystr) : Py.strip s = s -> trimmed s.
Proof. intros <-. apply strip_trimmed. Qed.

(** X13: whatever the provider does, the answer of the therapist tool
    neither begins nor ends with whitespace, in the backend and in
    src/app.py. *)
Theorem specialist_answer_trimmed (chat : Tools.ollama_chat)
    (therapist_llm : option App.chat_model) (prompt : pystr) :
  trimmed (Agent.ask_mental_health_specialist chat prompt)
  /\ trimmed (App.ask_mental_health_specialist therapist_llm prompt).
Proof.
  split.
  - unfold Agent.ask_mental_health_specialist, Tools.query_medgemma.
    destruct (chat _ _) as [[text|]|e];
      [apply strip_trimmed|apply trimmed_fixpoint..]; vm_compute; reflexivity.
  - unfold App.ask_mental_health_specialist.
    destruct therapist_llm as [llm|]; [|apply trimmed_fixpoint; vm_compute; reflexivity].
    destruct (llm _) as [[text|[|b bs]]|e];
      [apply strip_trimmed|apply trimmed_fixpoint..]; vm_compute; reflexivity.
Qed.

(** X14: the therapist tool of the backend returns the empty string
    exactly when the model answered with a text made of whitespace only
    (the empty text among them); a failure or a malformed response never
    gives the empty string. *)
Theorem specialist_answer_empty_iff (chat : Tools.ollama_chat) (prompt : pystr) :
  Agent.ask_mental_health_specialist chat prompt = []
  <-> exists text,
        chat py"alibayram/medgemma:4b"
             [(py"system", Tools.system_prompt); (py"user", prompt)]
        = Returned (Some text)
        /\ whitespace text.
Proof.
  unfold Agent.ask_mental_health_specialist, Tools.query_medgemma.
  destruct (chat _ _) as [[text|]|e]; split.
  - intros H. exists text. split; [done|by apply strip_nil_iff].
  - intros (t & [= <-] & Ht). by apply strip_nil_iff.
  - done.
  - by intros (t & H & _).
  - done.
  - by intros (t & H & _).
Qed.

(** ** Sessions across requests *)

Section Sessions.
Import Main.
Variable graph : graph_stream.

(** X15: the answer to a question depends on the store through the entry
    of the question's session id only: two stores that agree on that
    entry give the same answer, whatever else they hold. *)
Theorem answer_reads_own_session (query : Query) (S1 S2 : sessions) :
  S1 !! session_id query = S2 !! session_id query ->
  (ask_question graph query S1).2 = (ask_question graph query S2).2.
Proof. intros H. rewrite !ask_question_eq. simpl. by rewrite H. Qed.

(** X16: a registration lasts: after [start_session] and any further
    requests that register under other identifiers, a question asked with
    the session id is answered from the session context of the registered
    name and phone. *)
Theorem registration_lasts (uuid4 : pystr) (req : StartSessionRequest)
    (later : list request) (query : Query) (SESSIONS : sessions) :
  Forall (draws_other uuid4) later ->
  session_id query = uuid4 ->
  (ask_question graph query
     (serve_all graph (start_session uuid4 req SESSIONS).1 later)).2
  = let turn := parse_response
                  (graph [ (py"system", Agent.SYSTEM_PROMPT);
                           (py"system", session_context (req_name req) (req_phone req));
                           (py"user", message query) ]) in
    {| response := turn.2; tool_called := turn.1;
       chosen_response_mode := default (input_mode query) (response_mode query) |}.
Proof.
  intros Hlater Hsid. rewrite ask_question_eq. simpl.
  rewrite Hsid, (entry_survives graph uuid4 later _ Hlater).
  by rewrite lookup_insert_eq.
Qed.

(** X17: what a registration does to the store: the entry of the
    identifier drawn holds the name and the phone of the request and can
    be read back through the session id of the response, every other
    entry is as before, and the store grows by one entry when the
    identifier is new and keeps its size when the identifier was taken
    (the earlier entry is replaced). *)
Theorem registration_store (uuid4 : pystr) (req : StartSessionRequest)
    (SESSIONS : sessions) :
  (start_session uuid4 req SESSIONS).1 !! resp_session_id (start_session uuid4 req SESSIONS).2
  = Some (Session (req_name req) (req_phone req))
  /\ (forall sid, sid <> uuid4 ->
        (start_session uuid4 req SESSIONS).1 !! sid = SESSIONS !! sid)
  /\ size (start_session uuid4 req SESSIONS).1
     = match SESSIONS !! uuid4 with
       | None => S (size SESSIONS)
       | Some _ => size SESSIONS
       end.
Proof.
  simpl. split; [apply lookup_insert_eq|]. split.
  - intros sid Hsid. by rewrite lookup_insert_ne.
  - destruct (SESSIONS !! uuid4) as [old|] eqn:Hold.
    + rewrite <- (insert_delete_id SESSIONS uuid4 old Hold) at 2.
      rewrite <- insert_delete_eq.
      rewrite !map_size_insert_None by apply lookup_delete_eq. done.
    + by apply map_size_insert_None.
Qed.

Lemma reply_tool_not_empty (query : Query) (SESSIONS : sessions) :
  tool_called (ask_question graph query SESSIONS).2 <> [].
Proof. rewrite ask_question_eq. simpl. apply invoked_tool_not_empty. Qed.

(** X18: the reply of [ask_question] carries a text that neither begins
    nor ends with whitespace and a tool name that is never empty, and its
    response mode is the one asked for, or the input mode when none is
    asked for. *)
Theorem reply_shape (query : Query) (SESSIONS : sessions) :
  trimmed (response (ask_question graph query SESSIONS).2)
  /\ tool_called (ask_question graph query SESSIONS).2 <> []
  /\ chosen_response_mode (ask_question graph query SESSIONS).2
     = match response_mode query with
       | Some m => m
       | None => input_mode query
       end.
Proof.
  split; [|split; [apply reply_tool_not_empty|]].
  - rewrite ask_question_eq. simpl. apply parse_response_text_trimmed.
  - rewrite ask_question_eq. simpl. by destruct (response_mode query).
Qed.

End Sessions.

Lemma answer_reads_own_session_witness :
  (Main.ask_question silent_graph (question py"3f2c" py"hello")
     (<[py"77aa" := Main.Session py"Bob" py"+1777"]> ∅)).2
  = (Main.ask_question silent_graph (question py"3f2c" py"hello") ∅).2.
Proof.
  apply (answer_reads_own_session silent_graph (question py"3f2c" py"hello")).
  vm_compute. reflexivity.
Defined.

Lemma registration_lasts_witness :
  Main.response
    (Main.ask_question alarmed_graph (question py"3f2c" py"help")
       (Main.serve_all alarmed_graph (Main.start_session py"3f2c" ada ∅).1
          [ Main.PostStartSession py"77aa"
              {| Main.req_name := py"Bob"; Main.req_phone := py"+1777" |};
            Main.PostAsk (question py"77aa" py"hello");
            Main.GetRoot ])).2
  = py"Help is on the way.".
Proof.
  rewrite (registration_lasts alarmed_graph py"3f2c" ada
             [ Main.PostStartSession py"77aa"
                 {| Main.req_name := py"Bob"; Main.req_phone := py"+1777" |};
               Main.PostAsk (question py"77aa" py"hello");
               Main.GetRoot ]
             (question py"3f2c" py"help") ∅).
  - vm_compute. reflexivity.
  - repeat constructor. vm_compute. discriminate.
  - reflexivity.
Defined.

(** ** Every run of the retry loop *)

Section RetryLoop.
Import Frontend.

Lemma retried_inv (a : attempt) :
  retried a = true -> exists e, a = RequestException e.
Proof. destruct a; try done. by eexists. Qed.

(** X19: the requests the client makes: a request is made after each
    request exception, up to the third request; the pause of 1 second
    lies between the first and the second request and the pause of 2
    seconds between the second and the third, with no pause before the
    first request or after the last one made; and the function returns
    True exactly when the last request made gives the audio. *)
Theorem tts_requests (post : nat -> attempt) (text voice : pystr) :
  posts (handle_tts_generation_and_play post text voice).2
  = S (leading_failures post)
  /\ sleeps (handle_tts_generation_and_play post text voice).2
     = take (leading_failures post) [1; 2]
  /\ timeline (handle_tts_generation_and_play post text voice).2
     = match leading_failures post with
       | 0 => [HttpPost]
       | 1 => [HttpPost; Sleep 1; HttpPost]
       | _ => [HttpPost; Sleep 1; HttpPost; Sleep 2; HttpPost]
       end
  /\ ((handle_tts_generation_and_play post text voice).1 = true
      <-> post (leading_failures post) = AudioReady).
Proof.
  unfold handle_tts_generation_and_play, leading_failures. simpl.
  destruct (post 0) as [| |e0|e0] eqn:H0; simpl;
    [repeat split; (done || congruence)..| |repeat split; (done || congruence)].
  destruct (post 1) as [| |e1|e1] eqn:H1; simpl;
    [repeat split; (done || congruence)..| |repeat split; (done || congruence)].
  destruct (post 2) as [| |e2|e2] eqn:H2; simpl;
    repeat split; (done || congruence).
Qed.

(** X20: the function never ends without telling the user: when it
    returns True the last thing shown is the success notice, after the
    audio; when it returns False the last thing shown is an error. *)
Theorem tts_never_silent (post : nat -> attempt) (text voice : pystr) :
  if (handle_tts_generation_and_play post text voice).1
  then exists log,
         (handle_tts_generation_and_play post text voice).2
         = log ++ [StAudio; StSuccess py"Voice response played successfully."]
  else exists log msg,
         (handle_tts_generation_and_play post text voice).2
         = log ++ [StError msg].
Proof.
  unfold handle_tts_generation_and_play. simpl.
  destruct (post 0) as [| |e0|e0]; simpl.
  1: by eexists [_; _].
  1,3: by eexists [_; _], _.
  destruct (post 1) as [| |e1|e1]; simpl.
  1: by eexists [_; _; _; _; _].
  1,3: by eexists [_; _; _; _; _], _.
  destruct (post 2) as [| |e2|e2]; simpl.
  1: by eexists [_; _; _; _; _; _; _; _].
  all: by eexists [_; _; _; _; _; _; _; _], _.
Qed.

Lemma timeline_retry (w : pystr) (d : nat) (log : list event) :
  timeline (HttpPost :: StWarning w :: Sleep d :: log)
  = HttpPost :: Sleep d :: timeline log.
Proof. reflexivity. Qed.

(** The loop for any number of attempts, started at iteration [k]. *)
Lemma tts_loop_all_fail (post : nat -> attempt) (n m k : nat) :
  (forall i, retried (post i) = true) ->
  k + S m = n ->
  (tts_loop post n (seq k (S m))).1 = false
  /\ posts (tts_loop post n (seq k (S m))).2 = S m
  /\ sleeps (tts_loop post n (seq k (S m))).2 = (fun i => 2 ^ i) <$> seq k m
  /\ timeline (tts_loop post n (seq k (S m))).2 = backoff_timeline k m
  /\ exists log e,
       post (k + m) = RequestException e
       /\ (tts_loop post n (seq k (S m))).2
          = log ++ [StError (py"TTS API failed after multiple retries. Please check the backend service: " ++ e)]
       /\ Forall (fun ev => is_error ev = false) log.
Proof.
  intros Hfail. revert k. induction m as [|m IH]; intros k Hk.
  - simpl. destruct (retried_inv _ (Hfail k)) as [e He].
    rewrite Nat.add_0_r, He.
    assert ((k <? n - 1) = false) as -> by (apply Nat.ltb_ge; lia).
    repeat split; try done.
    exists [HttpPost], e. split; [done|]. split; [done|]. by repeat constructor.
  - change (seq k (S (S m))) with (k :: seq (S k) (S m)).
    cbn [tts_loop]. destruct (retried_inv _ (Hfail k)) as [e ->].
    assert ((k <? n - 1) = true) as -> by (apply Nat.ltb_lt; lia).
    destruct (IH (S k)) as (Hr & Hp & Hs & Ht & log' & e' & He' & Hlog & Hnone); [lia|].
    destruct (tts_loop post n (seq (S k) (S m))) as [r log].
    cbn [fst snd] in Hr, Hp, Hs, Ht, Hlog. cbn [fst snd].
    split; [exact Hr|]. split; [by rewrite <- Hp|].
    split; [|split].
    + change (seq k (S m)) with (k :: seq (S k) m).
      rewrite fmap_cons, <- Hs. reflexivity.
    + cbn [app]. rewrite timeline_retry, Ht. reflexivity.
    + eexists (_ :: _ :: _ :: log'), e'.
      replace (k + S m) with (S k + m) by lia.
      split; [exact He'|]. split; [by rewrite Hlog|].
      by repeat constructor.
Qed.

(** X21: the loop as it is written, for any positive number of attempts
    [max_retries]: when every request ends in a request exception, it
    makes [max_retries] requests, sleeps 2^i seconds after the failure of
    request i and before request i + 1, for every request but the last,
    and after the failure of the last request shows the error, as the
    last thing and the only error of the run, and returns False. *)
Theorem tts_backoff_doubles (post : nat -> attempt) (max_retries : nat) :
  (forall i, retried (post i) = true) ->
  0 < max_retries ->
  (tts_loop post max_retries (seq 0 max_retries)).1 = false
  /\ posts (tts_loop post max_retries (seq 0 max_retries)).2 = max_retries
  /\ sleeps (tts_loop post max_retries (seq 0 max_retries)).2
     = (fun i => 2 ^ i) <$> seq 0 (max_retries - 1)
  /\ timeline (tts_loop post max_retries (seq 0 max_retries)).2
     = backoff_timeline 0 (max_retries - 1)
  /\ exists log e,
       post (max_retries - 1) = RequestException e
       /\ (tts_loop post max_retries (seq 0 max_retries)).2
          = log ++ [StError (py"TTS API failed after multiple retries. Please check the backend service: " ++ e)]
       /\ Forall (fun ev => is_error ev = false) log.
Proof.
  intros Hfail Hpos. destruct max_retries as [|m]; [lia|].
  replace (S m - 1) with m by lia.
  apply (tts_loop_all_fail post (S m) m 0); [done|lia].
Qed.

End RetryLoop.

Lemma tts_backoff_doubles_witness :
  Frontend.sleeps (Frontend.tts_loop tts_down 5 (seq 0 5)).2 = [1; 2; 4; 8]
  /\ Frontend.posts (Frontend.tts_loop tts_down 5 (seq 0 5)).2 = 5
  /\ timeline (Frontend.tts_loop tts_down 5 (seq 0 5)).2
     = [ Frontend.HttpPost; Frontend.Sleep 1; Frontend.HttpPost; Frontend.Sleep 2;
         Frontend.HttpPost; Frontend.Sleep 4; Frontend.HttpPost; Frontend.Sleep 8;
         Frontend.HttpPost ].
Proof.
  destruct (tts_backoff_doubles tts_down 5 (fun i => eq_refl) (Nat.lt_0_succ 4))
    as (_ & Hp & Hs & Ht & _).
  split; [exact Hs|]. split; [exact Hp|exact Ht].
Defined.

(** ** The client of the backend *)

Section ClientPages.
Import Client.

(** X22: the registration page sends nothing unless the form is submitted
    with a name and a phone number that are both non-empty: otherwise the
    session state is left as it is and the page only shows its two fixed
    texts, whatever the backend would answer. *)
Theorem registration_needs_both_fields
    (post_start : pystr -> pystr -> http_result)
    (form : registration_form) (st : session_state) :
  submitted form = false \/ user_name form = [] \/ phone_number form = [] ->
  registration_page post_start form st
  = (st,
     [ UiMarkdown py"### Welcome to SafeSpace. Please register to start your session.";
       UiInfo py"Your session ID will be generated upon successful registration." ],
     Finished).
Proof.
  intros H. unfold registration_page.
  destruct H as [-> | [-> | ->]]; [done| |]; rewrite ?andb_false_r; done.
Qed.

Lemma start_json_session_id (r : Main.StartSessionResponse) :
  start_json r !! py"session_id" = Some (Main.resp_session_id r).
Proof. apply lookup_insert_eq. Qed.

Lemma start_json_greeting (r : Main.StartSessionResponse) :
  start_json r !! py"greeting" = Some (Main.greeting r).
Proof.
  unfold start_json. rewrite lookup_insert_ne by (vm_compute; discriminate).
  apply lookup_singleton_eq.
Qed.

(** X23: a registration against the backend: when the form is submitted
    with a non-empty name and phone, the client keeps the identifier the
    backend drew, adds the greeting of the backend to the chat history and
    asks for a rerun; under that identifier the store of the backend holds
    the name and the phone as they were typed. *)
Theorem registration_round_trip (uuid4 name phone : pystr)
    (SESSIONS : Main.sessions) (st : session_state) :
  name <> [] -> phone <> [] ->
  let request := {| Main.req_name := name; Main.req_phone := phone |} in
  let backend := Main.start_session uuid4 request SESSIONS in
  registration_page (backend_start uuid4 SESSIONS) (form_of name phone true) st
  = (append (with_session st uuid4) (Entry py"assistant" (Main.greeting backend.2)),
     [UiMarkdown py"### Welcome to SafeSpace. Please register to start your session."],
     Rerun)
  /\ backend.1 !! uuid4 = Some (Main.Session name phone).
Proof.
  intros Hname Hphone. simpl. split; [|apply lookup_insert_eq].
  unfold registration_page, backend_start. simpl.
  destruct name as [|c name]; [done|]. destruct phone as [|d phone]; [done|].
  simpl. rewrite start_json_session_id, start_json_greeting. reflexivity.
Qed.

Lemma ask_json_response (r : Main.AskResponse) :
  ask_json r !! py"response" = Some (Main.response r).
Proof. apply lookup_insert_eq. Qed.

Lemma ask_json_tool_called (r : Main.AskResponse) :
  ask_json r !! py"tool_called" = Some (Main.tool_called r).
Proof.
  unfold ask_json. rewrite lookup_insert_ne by (vm_compute; discriminate).
  apply lookup_insert_eq.
Qed.

(** X24: a message answered by the backend adds three entries to the chat
    history, in every case: the message of the user, the answer (behind
    the mark of a voice response in voice mode) and a system entry that
    names the tool called; the backend never sends an empty tool name, so
    the system entry is added also when no tool was called, and then reads
    "**Tool Called:** `None`". *)
Theorem answered_message_adds_three (graph : Main.graph_stream)
    (SESSIONS : Main.sessions) (tts : nat -> Frontend.attempt)
    (sid text : pystr) (w : chat_widgets) (st : session_state) :
  user_input w = Some text -> text <> [] ->
  let reply :=
    (Main.ask_question graph
       {| Main.message := text; Main.session_id := sid;
          Main.input_mode := input_mode_selector w;
          Main.response_mode := Some (response_mode_selector w) |} SESSIONS).2 in
  chat_history (chat_page (backend_ask graph SESSIONS) tts sid w st).1.1
  = chat_history st
    ++ [ Entry py"user" text;
         Entry py"assistant"
           (match response_mode_selector w with
            | Main.voice => py"**(Voice Response)**: " ++ Main.response reply
            | Main.chat => Main.response reply
            end);
         Entry py"system" (py"**Tool Called:** `" ++ Main.tool_called reply ++ py"`") ]
  /\ (chat_page (backend_ask graph SESSIONS) tts sid w st).2 = Rerun.
Proof.
  intros Hinput Htext. cbv zeta.
  unfold chat_page. rewrite Hinput.
  destruct text as [|c text]; [done|]. cbv zeta.
  unfold backend_ask. cbv beta iota.
  rewrite ask_json_response, ask_json_tool_called.
  unfold to_query. cbn [p_message p_session_id p_input_mode p_response_mode default].
  set (reply := (Main.ask_question graph _ SESSIONS).2).
  pose proof (reply_tool_not_empty graph _ SESSIONS : Main.tool_called reply <> []) as Htool.
  destruct (Main.tool_called reply) as [|t ts] eqn:Hcalled; [done|].
  destruct (response_mode_selector w).
  - split; [|done]. unfold append. cbn [chat_history fst snd].
    rewrite <- !app_assoc. reflexivity.
  - destruct (Frontend.handle_tts_generation_and_play tts _ py"Kore")
      as [played log].
    split; [|done]. unfold append. cbn [chat_history fst snd].
    rewrite <- !app_assoc. reflexivity.
Qed.

(** X25: when the backend cannot be reached, the message of the user
    stays in the chat history without an answer; the page shows the
    sidebar, then the network error, then the chat history, which ends
    with the message of the user, and nothing else; no voice is requested
    and no rerun is asked for. *)
Theorem unanswered_message (post_ask : payload -> http_result)
    (tts : nat -> Frontend.attempt) (sid text e : pystr)
    (w : chat_widgets) (st : session_state) :
  user_input w = Some text -> text <> [] ->
  post_ask {| p_message := text; p_session_id := sid;
              p_input_mode := input_mode_selector w;
              p_response_mode := response_mode_selector w |}
  = HttpRequestException e ->
  chat_page post_ask tts sid w st
  = ({| session_id := session_id st;
        chat_history := chat_history st ++ [Entry py"user" text];
        input_mode := input_mode_selector w;
        response_mode := Some (response_mode_selector w) |},
     [ UiSidebar py"Session Controls";
       UiSidebar (py"**Session ID:** `" ++ sid ++ py"`");
       UiSidebar py"---";
       UiSidebar py"Conversation Mode";
       UiError (py"Network error communicating with the backend: " ++ e) ]
     ++ (show <$> chat_history st) ++ [UiChatMessage py"user" text],
     Finished)
  /\ Forall silent (chat_page post_ask tts sid w st).1.2.
Proof.
  intros Hinput Htext Hpost.
  assert (chat_page post_ask tts sid w st
          = ({| session_id := session_id st;
                chat_history := chat_history st ++ [Entry py"user" text];
                input_mode := input_mode_selector w;
                response_mode := Some (response_mode_selector w) |},
             [ UiSidebar py"Session Controls";
               UiSidebar (py"**Session ID:** `" ++ sid ++ py"`");
               UiSidebar py"---";
               UiSidebar py"Conversation Mode";
               UiError (py"Network error communicating with the backend: " ++ e) ]
             ++ (show <$> chat_history st) ++ [UiChatMessage py"user" text],
             Finished)) as Hpage.
  { unfold chat_page. rewrite Hinput.
    destruct text as [|c text]; [done|]. cbv zeta. rewrite Hpost.
    unfold append. cbn [chat_history session_id input_mode response_mode].
    by rewrite fmap_app. }
  split; [exact Hpage|]. rewrite Hpage. cbn [fst snd].
  rewrite !Forall_app. repeat split.
  - repeat constructor.
  - apply Forall_fmap, Forall_true. by intros [r c'].
  - repeat constructor.
Qed.

(** X26: in chat mode no voice is requested: the page is the same
    whatever the TTS endpoint would do, and it holds no voice event. *)
Theorem chat_mode_requests_no_voice (post_ask : payload -> http_result)
    (tts1 tts2 : nat -> Frontend.attempt) (sid : pystr)
    (w : chat_widgets) (st : session_state) :
  response_mode_selector w = Main.chat ->
  chat_page post_ask tts1 sid w st = chat_page post_ask tts2 sid w st
  /\ Forall silent (chat_page post_ask tts1 sid w st).1.2.
Proof.
  intros Hmode. unfold chat_page. rewrite Hmode.
  assert (forall h : list chat_entry, Forall silent (show <$> h)) as Hshow
    by (intros h; apply Forall_fmap, Forall_true; by intros [r c']).
  destruct (user_input w) as [[|c text]|]; cbv zeta.
  1,3: split; [done|]; apply Forall_app; split; [repeat constructor|apply Hshow].
  destruct (post_ask _) as [data|e|e]; cbv zeta.
  - split; [done|].
    destruct (data !! py"tool_called") as [[|t ts]|]; cbn;
      repeat constructor.
  - split; [done|]. cbn [fst snd]. rewrite !Forall_app. repeat split;
      [repeat constructor..|apply Hshow].
  - split; [done|]. cbn [fst snd]. rewrite !Forall_app. repeat split;
      [repeat constructor..|apply Hshow].
Qed.

End ClientPages.

Lemma registration_needs_both_fields_witness :
  Client.registration_page (Client.backend_start py"3f2c" ∅)
    (form_of py"Ada" [] true) Client.initial
  = (Client.initial,
     [ UiMarkdown py"### Welcome to SafeSpace. Please register to start your session.";
       UiInfo py"Your session ID will be generated upon successful registration." ],
     Finished).
Proof.
  apply (registration_needs_both_fields (Client.backend_start py"3f2c" ∅)
           (form_of py"Ada" [] true) Client.initial).
  right. right. reflexivity.
Defined.

Lemma registration_round_trip_witness :
  Client.session_id
    (Client.registration_page (Client.backend_start py"3f2c" ∅)
       (form_of py"Ada" py" +1555 " true) Client.initial).1.1 = Some py"3f2c"
  /\ (Main.start_session py"3f2c" ada ∅).1 !! py"3f2c"
     = Some (Main.Session py"Ada" py"+1555").
Proof.
  destruct (registration_round_trip py"3f2c" py"Ada" py" +1555 " ∅ Client.initial)
    as [Hpage _]; [done..|].
  destruct (registration_round_trip py"3f2c" py"Ada" py"+1555" ∅ Client.initial)
    as [_ Hstore]; [done..|].
  split; [by rewrite Hpage|exact Hstore].
Defined.

Lemma answered_message_adds_three_witness :
  Client.chat_history
    (Client.chat_page (Client.backend_ask silent_graph ∅) tts_down py"3f2c"
       (typing Main.chat py"hello") Client.initial).1.1
  = [ Entry py"user" py"hello"; Entry py"assistant" [];
      Entry py"system" py"**Tool Called:** `None`" ].
Proof.
  destruct (answered_message_adds_three silent_graph ∅ tts_down py"3f2c" py"hello"
              (typing Main.chat py"hello") Client.initial eq_refl) as [H _]; [done|].
  rewrite H. vm_compute. reflexivity.
Defined.

Lemma unanswered_message_witness :
  Client.chat_history
    (Client.chat_page backend_down tts_down py"3f2c"
       (typing Main.voice py"hello") Client.initial).1.1
  = [Entry py"user" py"hello"]
  /\ (Client.chat_page backend_down tts_down py"3f2c"
        (typing Main.voice py"hello") Client.initial).2 = Finished.
Proof.
  destruct (unanswered_message backend_down tts_down py"3f2c" py"hello"
              py"Connection refused" (typing Main.voice py"hello") Client.initial
              eq_refl) as [H _]; [done|reflexivity|].
  rewrite H. split; reflexivity.
Defined.

Lemma chat_mode_requests_no_voice_witness :
  Client.chat_page (Client.backend_ask silent_graph ∅) tts_down py"3f2c"
    (typing Main.chat py"hello") Client.initial
  = Client.chat_page (Client.backend_ask silent_graph ∅) tts_flaky py"3f2c"
      (typing Main.chat py"hello") Client.initial.
Proof.
  exact (proj1 (chat_mode_requests_no_voice (Client.backend_ask silent_graph ∅)
                  tts_down tts_flaky py"3f2c" (typing Main.chat py"hello")
                  Client.initial eq_refl)).
Defined.

(** ** The page of the standalone application *)

Section AppPage.
Import AppUI.

Lemma or_else_trimmed (a b : pystr) : trimmed a -> trimmed b -> trimmed (or_else a b).
Proof. intros Ha Hb. unfold or_else. by destruct (Py.truthy a). Qed.

Lemma or_else_idemp (a b : pystr) : b <> [] -> or_else (or_else a b) b = or_else a b.
Proof.
  intros Hb. unfold or_else. destruct a as [|c a]; simpl; [|done].
  by destruct b.
Qed.

Lemma or_else_nil (a : pystr) : or_else a [] = a.
Proof. by destruct a. Qed.

(** X27: "Start session" normalises what was typed: the name kept is
    the typed name without the whitespace around it when something else
    than whitespace was typed, and "there" otherwise, so it is never
    empty; the phone kept is the typed phone without the whitespace around
    it; the session id is the identifier drawn, and the chat is reset to
    the single greeting made with the name kept. *)
Theorem start_normalises (uuid4 : pystr) (w : widgets) (st : session_state) :
  name (on_start uuid4 w st) <> []
  /\ trimmed (name (on_start uuid4 w st))
  /\ (whitespace (name_input w) -> name (on_start uuid4 w st) = py"there")
  /\ (~ whitespace (name_input w) ->
      name (on_start uuid4 w st) = Py.strip (name_input w))
  /\ phone (on_start uuid4 w st) = Py.strip (phone_input w)
  /\ trimmed (phone (on_start uuid4 w st))
  /\ session_id (on_start uuid4 w st) = Some uuid4
  /\ messages (on_start uuid4 w st)
     = [Entry py"assistant"
          (py"Hello " ++ name (on_start uuid4 w st)
           ++ py", I'm Friday. We can chat here. If you ever indicate an emergency, I may attempt to call the provided number for help.")].
Proof.
  unfold on_start. cbn [name phone session_id messages].
  split; [|split; [|split; [|split; [|split; [|split; [|split]]]]]].
  - unfold or_else. by destruct (Py.strip (name_input w)).
  - apply or_else_trimmed; [apply strip_trimmed|apply trimmed_fixpoint; by vm_compute].
  - intros H. apply strip_nil_iff in H. by rewrite H.
  - intros H. unfold or_else.
    destruct (Py.strip (name_input w)) as [|c n] eqn:Hstrip; [|done].
    by apply strip_nil_iff in Hstrip.
  - done.
  - apply strip_trimmed.
  - done.
  - reflexivity.
Qed.

Lemma start_normalises_witness :
  AppUI.name (AppUI.on_start py"3f2c" (starting py"   " py" +1555 ") AppUI.initial)
  = py"there"
  /\ AppUI.name (AppUI.on_start py"3f2c" (starting py" Ada " py" +1555 ") AppUI.initial)
     = py"Ada"
  /\ AppUI.phone (AppUI.on_start py"3f2c" (starting py"   " py" +1555 ") AppUI.initial)
     = py"+1555".
Proof.
  destruct (start_normalises py"3f2c" (starting py"   " py" +1555 ") AppUI.initial)
    as (_ & _ & Hblank & _ & Hphone & _).
  destruct (start_normalises py"3f2c" (starting py" Ada " py" +1555 ") AppUI.initial)
    as (_ & _ & _ & Hname & _).
  split; [|split].
  - apply Hblank. repeat constructor.
  - rewrite Hname; [vm_compute; reflexivity|].
    intros H. apply strip_nil_iff in H. vm_compute in H. discriminate H.
  - rewrite Hphone. vm_compute. reflexivity.
Defined.

(** X28: in src/app.py the phone reaches the agent without the whitespace
    typed around it: after "Start session", a message is answered by
    running the agent on the session context built from the name kept and
    from the trimmed phone. *)
Theorem app_context_holds_trimmed_phone (graph : Main.graph_stream)
    (uuid4 text : pystr) (w : widgets) (st : session_state) :
  let name := or_else (Py.strip (name_input w)) py"there" in
  let phone := Py.strip (phone_input w) in
  let turn := parse_response
                (graph [ (py"system", Agent.SYSTEM_PROMPT);
                         (py"system", session_context name phone);
                         (py"user", text) ]) in
  messages (on_message (Some graph) text (on_start uuid4 w st)).1
  = [ Entry py"assistant" (greeting name);
      Entry py"user" text;
      Entry py"assistant" turn.2 ]
  /\ session_context name phone
     = py"User name: " ++ name ++ py". User phone: " ++ Py.strip (phone_input w)
       ++ py". When using call_emergency_services(phone), always pass this exact phone number: "
       ++ Py.strip (phone_input w) ++ py". Agent name is Friday.".
Proof.
  cbv zeta. split; [|reflexivity].
  unfold on_message, on_start, append.
  cbn [name phone session_id messages].
  rewrite or_else_idemp by done. rewrite or_else_nil.
  destruct (parse_response _) as [tool final].
  cbn [fst snd messages]. by rewrite or_else_nil.
Qed.

(** X29: every message of the user adds two entries to the chat, the
    message and the answer, with or without a configured model; without
    one the answer kept is the empty string and an error is shown, and
    with one the answer kept is the final text of the turn, also when it
    is empty and "(No response)" is what is shown. *)
Theorem message_adds_two (graph : option Main.graph_stream) (text : pystr)
    (st : session_state) :
  let inputs :=
    [ (py"system", Agent.SYSTEM_PROMPT);
      (py"system", session_context (or_else (name st) py"there") (phone st));
      (py"user", text) ] in
  messages (on_message graph text st).1
  = messages st
    ++ [ Entry py"user" text;
         Entry py"assistant"
           (match graph with
            | Some g => (parse_response (g inputs)).2
            | None => []
            end) ]
  /\ match graph with
     | Some g =>
       UiChatMessage py"assistant"
         (if Py.truthy (parse_response (g inputs)).2
          then (parse_response (g inputs)).2 else py"(No response)")
       ∈ (on_message graph text st).2
     | None =>
       (on_message graph text st).2
       = [ UiChatMessage py"user" text;
           UiError py"Server not configured. Please set GROQ_API_KEY in your environment and restart." ]
     end.
Proof.
  cbv zeta. unfold on_message, append. cbn [name phone session_id messages].
  rewrite or_else_nil.
  destruct graph as [g|].
  - destruct (parse_response _) as [tool final]. cbn [fst snd messages].
    rewrite or_else_nil, <- app_assoc. split; [done|].
    apply elem_of_cons. right. apply elem_of_app. left.
    apply list_elem_of_singleton. done.
  - cbn [fst snd messages]. rewrite <- app_assoc. done.
Qed.

(** X30: the caption "Tool used: ..." is shown exactly when the turn
    invoked a tool, that is when the tool name returned by
    [parse_response] is not "None"; it then names that tool. *)
Theorem tool_caption_iff (graph : Main.graph_stream) (text : pystr)
    (st : session_state) :
  let turn := parse_response
                (graph [ (py"system", Agent.SYSTEM_PROMPT);
                         (py"system", session_context (or_else (name st) py"there") (phone st));
                         (py"user", text) ]) in
  List.filter is_caption (on_message (Some graph) text st).2
  = if bool_decide (turn.1 = py"None") then []
    else [UiCaption (py"Tool used: " ++ turn.1)].
Proof.
  cbv zeta. unfold on_message. cbn [name phone session_id messages append].
  rewrite or_else_nil.
  match goal with
  | |- context [parse_response ?s] =>
    pose proof (invoked_tool_not_empty s) as Hne;
    destruct (parse_response s) as [tool final]
  end.
  cbn [fst snd] in *. destruct tool as [|c tool]; [done|].
  cbn [Py.truthy andb]. by destruct (bool_decide _).
Qed.

End AppPage.

Lemma tool_caption_iff_witness :
  List.filter is_caption
    (AppUI.on_message (Some alarmed_graph) py"help"
       (AppUI.on_start py"3f2c" (starting py"Ada" py"+1555") AppUI.initial)).2
  = [UiCaption py"Tool used: call_emergency_services"]
  /\ List.filter is_caption
       (AppUI.on_message (Some silent_graph) py"hello"
          (AppUI.on_start py"3f2c" (starting py"Ada" py"+1555") AppUI.initial)).2
     = [].
Proof.
  split.
  - rewrite (tool_caption_iff alarmed_graph py"help"). vm_compute. reflexivity.
  - rewrite (tool_caption_iff silent_graph py"hello"). vm_compute. reflexivity.
Defined.
